(** * Architectural state of the 8080 emulator: condition flags and registers

    A shallow embedding of [cpu.py]: the classes [Flags] and [Registers]
    become the modules [Flags] and [Registers], their methods become
    computations in a small state-and-exception monad over the mutable
    attribute of the instance ([self.flags], an integer; [self._registers],
    a dictionary from integers to integers). *)

From stdpp Require Import gmap strings list.

Local Open Scope Z_scope.

(** ** Python values reaching the accessors

    The accessors inspect the dynamic type of their key ([type(key) != int])
    and compare it with integers ([key not in ...], [value == 0]), so keys
    are dynamically typed values.  [bool] is not [int] for [type], yet
    [False == 0] and [True == 1] for [==], [in] and dictionary lookup. *)

Inductive pyval : Type :=
| PyInt (z : Z)
| PyBool (b : bool)
| PyStr (s : string)
| PyNone.

(** The integer a value compares equal to under Python's [==], if any. *)
Definition py_as_int (v : pyval) : option Z :=
  match v with
  | PyInt z => Some z
  | PyBool b => Some (Z.b2z b)
  | PyStr _ | PyNone => None
  end.

(** [v == n] for an integer [n]. *)
Definition py_eq_int (v : pyval) (n : Z) : bool :=
  match py_as_int v with
  | Some z => bool_decide (z = n)
  | None => false
  end.

(** [v in t] for a tuple [t] of integers. *)
Definition py_in (v : pyval) (t : list Z) : bool :=
  existsb (py_eq_int v) t.

(** ** Exceptions *)

Inductive exn : Type :=
| InvalidFlagException (flag : pyval)
| InvalidPairException
| TypeError (msg : string)
| IndexError (arg : pyval)
| ValueError (msg : string)
| KeyError (key : Z).

Inductive res (A : Type) : Type :=
| Ok (a : A)
| Raise (e : exn).
Arguments Ok {A} a.
Arguments Raise {A} e.

(** ** State and exception monad

    A method is a function from the state before the call to its outcome
    and the state after it; a raised exception keeps the state reached when
    it was raised. *)

Section Monad.
Context {S : Type}.

Definition M (A : Type) : Type := S -> res A * S.

Definition ret {A} (a : A) : M A := fun s => (Ok a, s).

Definition raise {A} (e : exn) : M A := fun s => (Raise e, s).

Definition bind {A B} (c : M A) (k : A -> M B) : M B :=
  fun s =>
    match c s with
    | (Ok a, s') => k a s'
    | (Raise e, s') => (Raise e, s')
    end.

Definition get : M S := fun s => (Ok s, s).

Definition put (s : S) : M unit := fun _ => (Ok tt, s).

Definition lift {A} (r : res A) : M A := fun s => (r, s).

(** [for x in l: body(x)] *)
Fixpoint for_each {A} (l : list A) (body : A -> M unit) : M unit :=
  match l with
  | [] => ret tt
  | x :: l' => bind (body x) (fun _ => for_each l' body)
  end.
End Monad.
Arguments M : clear implicits.

Notation "x <~ c ;; k" := (bind c (fun x => k))
  (at level 100, c at next level, right associativity).
Notation "c ;;; k" := (bind c (fun _ => k))
  (at level 100, right associativity).

(** Outcome and final state of a call. *)
Definition outcome {S A} (c : M S A) (s : S) : res A := fst (c s).
Definition after {S A} (c : M S A) (s : S) : S := snd (c s).

(** [2 ** bit].  A negative exponent gives a float and a non-numeric one
    is rejected; in both cases the bitwise operator applied to the result
    raises [TypeError], which is what the model reports. *)
Definition py_pow2 (bit : pyval) : res Z :=
  match bit with
  | PyInt z =>
      if bool_decide (0 <= z) then Ok (2 ^ z)
      else Raise (TypeError "unsupported operand type(s)")
  | PyBool b => Ok (2 ^ Z.b2z b)
  | PyStr _ | PyNone => Raise (TypeError "unsupported operand type(s)")
  end.

(** * Condition flags *)

Module Flags.

Definition CARRY : Z := 0.
Definition PARITY : Z := 2.
Definition AUX_CARRY : Z := 3.
Definition ZERO : Z := 6.
Definition SIGN : Z := 7.

(** [self._valid_bits], never reassigned after [__init__]. *)
Definition _valid_bits : list Z := [CARRY; PARITY; AUX_CARRY; ZERO; SIGN].

(** [self.flags] after [__init__]. *)
Definition __init__ : Z := 2.

Definition __len__ : M Z Z := ret 5.

(** The values the generator [__iter__] yields, in order. *)
Definition __iter__ : M Z (list Z) :=
  flags <~ get ;;
  ret (map (fun f => Z.shiftr (Z.land flags (2 ^ f)) f) _valid_bits).

(** [self.flags |= 2 ** bit] *)
Definition _set_flag (bit : pyval) : M Z unit :=
  p <~ lift (py_pow2 bit) ;;
  flags <~ get ;;
  put (Z.lor flags p).

(** [self.flags &= ~ 2 ** bit]; [**] binds tighter than [~]. *)
Definition _clear_flag (bit : pyval) : M Z unit :=
  p <~ lift (py_pow2 bit) ;;
  flags <~ get ;;
  put (Z.land flags (Z.lnot p)).

Definition set (bit : pyval) : M Z unit :=
  if negb (py_in bit _valid_bits) then raise (InvalidFlagException bit)
  else _set_flag bit.

Definition clear (bit : pyval) : M Z unit :=
  if negb (py_in bit _valid_bits) then raise (InvalidFlagException bit)
  else _clear_flag bit.

Definition __getitem__ (key : pyval) : M Z Z :=
  match key with
  | PyInt k =>
      if negb (py_in key _valid_bits) then raise (IndexError key)
      else flags <~ get ;; ret (Z.shiftr (Z.land flags (2 ^ k)) k)
  | _ => raise (TypeError "Expected bit-number of flag")
  end.

Definition __setitem__ (key value : pyval) : M Z unit :=
  match key with
  | PyInt _ =>
      if negb (py_in key _valid_bits) then raise (IndexError key)
      else if py_eq_int value 0 then _clear_flag key
      else if py_eq_int value 1 then _set_flag key
      else raise (ValueError "Flags can only be 1 or 0")
  | _ => raise (TypeError "Expected bit-number of flag")
  end.

Definition clear_all : M Z unit :=
  for_each _valid_bits (fun f => _clear_flag (PyInt f)).

(** One turn of the loop of [calculate_parity] on the locals
    [(data, count)]. *)
Definition parity_step (st : Z * Z) : Z * Z :=
  let '(data, count) := st in
  (Z.shiftr data 1, if bool_decide (Z.land data 1 = 1) then count + 1 else count).

(** [count] after [for bits in range(8)]. *)
Definition parity_count (data : Z) : Z :=
  snd (Nat.iter 8 parity_step (data, 0)).

Definition calculate_parity (data : Z) : M Z unit :=
  if bool_decide (parity_count data mod 2 = 0) then set (PyInt PARITY)
  else clear (PyInt PARITY).

Definition set_zero (data : Z) : M Z unit :=
  if bool_decide (data = 0) then set (PyInt ZERO)
  else clear (PyInt ZERO).

Section SetSign.
(** [utils.is_negative], imported by the module and defined outside
    it: any total predicate on integers. *)
Variable is_negative : Z -> bool.

Definition set_sign (val : Z) : M Z unit :=
  clear (PyInt SIGN) ;;;
  if is_negative val then set (PyInt SIGN) else ret tt.

(** The public operations of a flag register. *)
Inductive op : Type :=
| OpSet (bit : pyval)
| OpClear (bit : pyval)
| OpGetItem (key : pyval)
| OpSetItem (key value : pyval)
| OpClearAll
| OpLen
| OpIter
| OpCalculateParity (data : Z)
| OpSetZero (data : Z)
| OpSetSign (val : Z).

(** The flag word after one call, whether it returned or raised. *)
Definition effect (o : op) (flags : Z) : Z :=
  match o with
  | OpSet bit => after (set bit) flags
  | OpClear bit => after (clear bit) flags
  | OpGetItem key => after (__getitem__ key) flags
  | OpSetItem key value => after (__setitem__ key value) flags
  | OpClearAll => after clear_all flags
  | OpLen => after __len__ flags
  | OpIter => after __iter__ flags
  | OpCalculateParity data => after (calculate_parity data) flags
  | OpSetZero data => after (set_zero data) flags
  | OpSetSign val => after (set_sign val) flags
  end.

(** The flag word after a sequence of calls, oldest first. *)
Definition run (ops : list op) (flags : Z) : Z :=
  fold_left (fun f o => effect o f) ops flags.
End SetSign.

End Flags.


(** * Register file *)

(** [RegisterPair = namedtuple("RegisterPair", ["hi", "lo"])] *)
Record RegisterPair : Type := MkRegisterPair { hi : Z; lo : Z }.

(** [l[i]] on a list: a negative index counts from the end. *)
Definition py_list_getitem {A} (l : list A) (i : Z) : res A :=
  let n := Z.of_nat (length l) in
  let j := if bool_decide (i < 0) then i + n else i in
  if bool_decide (0 <= j < n) then
    match l !! Z.to_nat j with
    | Some x => Ok x
    | None => Raise (IndexError (PyStr "list index out of range"))
    end
  else Raise (IndexError (PyStr "list index out of range")).

Module Registers.

Definition B : Z := 0.
Definition C : Z := 1.
Definition D : Z := 2.
Definition E : Z := 3.
Definition H : Z := 4.
Definition L : Z := 5.
(** [M], the memory reference; [M] names the monad here. *)
Definition M_ : Z := 6.
Definition A : Z := 7.

(** [self._registers] after [__init__]. *)
Definition __init__ : gmap Z Z :=
  {[ B := 0; C := 0; D := 0; E := 0; H := 0; L := 0; A := 0 ]}.

(** [self._pairs], never reassigned after [__init__]. *)
Definition _pairs : gmap Z RegisterPair :=
  {[ H := MkRegisterPair H L; B := MkRegisterPair B C; D := MkRegisterPair D E ]}.

(** [self._rp], never reassigned after [__init__]. *)
Definition _rp : list RegisterPair :=
  [MkRegisterPair B C; MkRegisterPair D E; MkRegisterPair H L].

(** [self._registers[k]] as an expression. *)
Definition subscript (k : Z) : M (gmap Z Z) Z :=
  regs <~ get ;;
  match regs !! k with
  | Some v => ret v
  | None => raise (KeyError k)
  end.

(** [self._registers[k] = v] *)
Definition store (k v : Z) : M (gmap Z Z) unit :=
  regs <~ get ;;
  put (<[k := v]> regs).

(** [k not in self._registers] *)
Definition absent (k : Z) : M (gmap Z Z) bool :=
  regs <~ get ;;
  ret (bool_decide (regs !! k = None)).

Definition __getitem__ (reg : pyval) : M (gmap Z Z) Z :=
  match reg with
  | PyInt r =>
      missing <~ absent r ;;
      if missing then raise (IndexError reg) else subscript r
  | _ => raise (TypeError "Expected register number")
  end.

Definition __setitem__ (reg : pyval) (val : Z) : M (gmap Z Z) unit :=
  match reg with
  | PyInt r =>
      missing <~ absent r ;;
      if missing then raise (IndexError reg) else store r val
  | _ => raise (TypeError "Expected register number")
  end.

Definition get_address_from_pair (register : pyval) : M (gmap Z Z) Z :=
  match py_as_int register ≫= (_pairs !!.) with
  | None => raise InvalidPairException
  | Some rp =>
      h <~ subscript (hi rp) ;;
      l <~ subscript (lo rp) ;;
      ret (Z.lor (Z.shiftl h 8) l)
  end.

Definition get_value_from_pair (pair : RegisterPair) : M (gmap Z Z) Z :=
  h <~ subscript (hi pair) ;;
  l <~ subscript (lo pair) ;;
  ret (Z.lor (Z.shiftl h 8) l).

Definition set_value_pair (pair : RegisterPair) (val : Z) : M (gmap Z Z) unit :=
  store (hi pair) (Z.land (Z.shiftr val 8) 255) ;;;
  store (lo pair) (Z.land val 255).

(** A static method: no instance is involved.  A negative shift count
    raises [ValueError]. *)
Definition get_register_from_opcode (opcode bit_offset : Z) : res Z :=
  if bool_decide (bit_offset < 0) then Raise (ValueError "negative shift count")
  else Ok (Z.shiftr (Z.land opcode (Z.shiftl 7 bit_offset)) bit_offset).

Definition get_pairs (pair_encoding : pyval) : M (gmap Z Z) RegisterPair :=
  match pair_encoding with
  | PyInt i => lift (py_list_getitem _rp i)
  | PyBool b => lift (py_list_getitem _rp (Z.b2z b))
  | PyStr _ | PyNone => raise (TypeError "list indices must be integers or slices")
  end.

(** The public operations of a register file. *)
Inductive op : Type :=
| OpGetItem (reg : pyval)
| OpSetItem (reg : pyval) (val : Z)
| OpGetAddressFromPair (register : pyval)
| OpGetValueFromPair (pair : RegisterPair)
| OpSetValuePair (pair : RegisterPair) (val : Z)
| OpGetRegisterFromOpcode (opcode bit_offset : Z)
| OpGetPairs (pair_encoding : pyval).

(** The registers after one call, whether it returned or raised. *)
Definition effect (o : op) (regs : gmap Z Z) : gmap Z Z :=
  match o with
  | OpGetItem reg => after (__getitem__ reg) regs
  | OpSetItem reg val => after (__setitem__ reg val) regs
  | OpGetAddressFromPair register => after (get_address_from_pair register) regs
  | OpGetValueFromPair rp => after (get_value_from_pair rp) regs
  | OpSetValuePair rp val => after (set_value_pair rp val) regs
  | OpGetRegisterFromOpcode opcode bit_offset =>
      after (lift (get_register_from_opcode opcode bit_offset)) regs
  | OpGetPairs pair_encoding => after (get_pairs pair_encoding) regs
  end.

(** The registers after a sequence of calls, oldest first. *)
Definition run (ops : list op) (regs : gmap Z Z) : gmap Z Z :=
  fold_left (fun r o => effect o r) ops regs.

(** The codes of the seven scalar registers. *)
Definition scalar_codes : list Z := [B; C; D; E; H; L; A].

End Registers.

(** * Notions the statements are phrased with *)

(** Number of 1-bits of a positive binary numeral. *)
Fixpoint pos_popcount (p : positive) : Z :=
  match p with
  | xH => 1
  | xO q => pos_popcount q
  | xI q => 1 + pos_popcount q
  end.

(** Number of 1-bits of a non-negative integer. *)
Definition popcount (d : Z) : Z :=
  match d with
  | Zpos p => pos_popcount p
  | _ => 0
  end.

(** Every scalar register holds a value in [[0,255]]. *)
Definition scalars_are_bytes (regs : gmap Z Z) : bool :=
  forallb (fun r => match regs !! r with
                    | Some v => bool_decide (0 <= v <= 255)
                    | None => false
                    end)
          Registers.scalar_codes.

(** Every pair of [_rp] reads a composed value in [[0,65535]]. *)
Definition pairs_are_words (regs : gmap Z Z) : bool :=
  forallb (fun rp => match outcome (Registers.get_value_from_pair rp) regs with
                     | Ok v => bool_decide (0 <= v <= 65535)
                     | Raise _ => false
                     end)
          Registers._rp.

(** An operation that, when it is an indexed scalar write, stores a value
    in [[0,255]]. *)
Definition writes_byte (o : Registers.op) : bool :=
  match o with
  | Registers.OpSetItem _ val => bool_decide (0 <= val <= 255)
  | _ => true
  end.

(** The stored cells are exactly the seven that [__init__] creates. *)
Definition seven_cells (regs : gmap Z Z) : Prop :=
  forall k, is_Some (regs !! k) <-> In k Registers.scalar_codes.

(** An operation whose pair descriptor, if it has one, names scalar
    registers. *)
Definition names_scalars (o : Registers.op) : Prop :=
  match o with
  | Registers.OpGetValueFromPair rp | Registers.OpSetValuePair rp _ =>
      In (hi rp) Registers.scalar_codes /\ In (lo rp) Registers.scalar_codes
  | _ => True
  end.

(** Every stored cell holds a byte and the seven scalar cells exist. *)
Definition bytes_inv (regs : gmap Z Z) : Prop :=
  (forall k v, regs !! k = Some v -> 0 <= v <= 255) /\
  (forall k, In k Registers.scalar_codes -> is_Some (regs !! k)).


(** * Sanity checks on concrete inputs *)

Example flags_set_zero_then_read :
  outcome (Flags.__getitem__ (PyInt Flags.ZERO))
          (after (Flags.set_zero 0) Flags.__init__) = Ok 1.
Proof. reflexivity. Qed.

Example flags_iter_fresh :
  outcome Flags.__iter__ Flags.__init__ = Ok [0; 0; 0; 0; 0].
Proof. reflexivity. Qed.

Example registers_fresh_all_zero :
  Forall (fun r => Registers.__init__ !! r = Some 0) Registers.scalar_codes.
Proof. repeat constructor. Qed.

Example registers_address_2000 :
  outcome (Registers.get_address_from_pair (PyInt Registers.H))
    (Registers.run [Registers.OpSetItem (PyInt Registers.H) 0x20;
                    Registers.OpSetItem (PyInt Registers.L) 0x00]
                   Registers.__init__) = Ok 0x2000.
Proof. vm_compute. reflexivity. Qed.

Example registers_get_pairs_2 :
  outcome (Registers.get_pairs (PyInt 2)) Registers.__init__
  = Ok (MkRegisterPair Registers.H Registers.L).
Proof. reflexivity. Qed.

(** * Bit-level facts used by both components *)

Section Bits.

(** Reading one bit of a word the way the accessors do it:
    [(w & 2 ** k) >> k] is the bit of [w] at position [k]. *)
Lemma read_bit (w k : Z) :
  0 <= k -> Z.shiftr (Z.land w (2 ^ k)) k = Z.b2z (Z.testbit w k).
Proof.
  intros Hk. apply Z.bits_inj'. intros i Hi.
  rewrite Z.shiftr_spec, Z.land_spec, Z.pow2_bits_eqb by lia.
  destruct (decide (i = 0)) as [-> | Hne].
  - rewrite Z.add_0_l, Z.eqb_refl, andb_true_r. symmetry. apply Z.b2z_bit0.
  - replace (k =? i + k) with false by (symmetry; apply Z.eqb_neq; lia).
    rewrite andb_false_r. symmetry.
    destruct (Z.testbit w k); simpl.
    + change 1 with (2 ^ 0). apply Z.pow2_bits_false. lia.
    + apply Z.bits_0.
Qed.

(** Or-ing in [2 ** k] sets bit [k] and nothing else. *)
Lemma lor_pow2_bits (w k i : Z) :
  0 <= k ->
  Z.testbit (Z.lor w (2 ^ k)) i = if decide (i = k) then true else Z.testbit w i.
Proof.
  intros Hk. rewrite Z.lor_spec, Z.pow2_bits_eqb by lia.
  destruct (decide (i = k)) as [-> | Hne].
  - rewrite Z.eqb_refl. apply orb_true_r.
  - replace (k =? i) with false by (symmetry; apply Z.eqb_neq; lia).
    apply orb_false_r.
Qed.

(** And-ing with [~ 2 ** k] clears bit [k] and nothing else. *)
Lemma land_lnot_pow2_bits (w k i : Z) :
  0 <= k ->
  Z.testbit (Z.land w (Z.lnot (2 ^ k))) i
  = if decide (i = k) then false else Z.testbit w i.
Proof.
  intros Hk. destruct (decide (i < 0)) as [Hneg | Hpos].
  - rewrite !Z.testbit_neg_r by lia. by destruct (decide (i = k)).
  - rewrite Z.land_spec, Z.lnot_spec, Z.pow2_bits_eqb by lia.
    destruct (decide (i = k)) as [-> | Hne].
    + rewrite Z.eqb_refl. apply andb_false_r.
    + replace (k =? i) with false by (symmetry; apply Z.eqb_neq; lia).
      apply andb_true_r.
Qed.

(** A byte below a value shifted by eight bits shares no bit with it, so
    the [|] of the pair assembly is an addition. *)
Lemma lor_shiftl_byte (h l : Z) :
  0 <= l < 256 -> Z.lor (Z.shiftl h 8) l = h * 256 + l.
Proof.
  intros Hl.
  assert (Hdisj : Z.land (Z.shiftl h 8) l = 0).
  { apply Z.bits_inj'. intros i Hi. rewrite Z.land_spec, Z.bits_0.
    destruct (decide (i < 8)) as [Hlt | Hge].
    - rewrite Z.shiftl_spec_low by lia. done.
    - replace (Z.testbit l i) with false; [apply andb_false_r |].
      symmetry.
      apply (proj1 (Z.bounded_iff_bits_nonneg 8 l ltac:(lia) ltac:(lia)));
        [change (2 ^ 8) with 256; lia | lia]. }
  rewrite <- Z.lxor_lor by exact Hdisj.
  rewrite <- Z.add_nocarry_lxor by exact Hdisj.
  rewrite Z.shiftl_mul_pow2 by lia. reflexivity.
Qed.

Lemma land_255 (v : Z) : Z.land v 255 = v mod 256.
Proof. change 255 with (Z.ones 8). rewrite Z.land_ones by lia. reflexivity. Qed.

(** Splitting a value into two bytes and assembling them again keeps its
    low sixteen bits. *)
Lemma split_assemble (v : Z) :
  Z.lor (Z.shiftl (Z.land (Z.shiftr v 8) 255) 8) (Z.land v 255) = v mod 65536.
Proof.
  rewrite lor_shiftl_byte by (rewrite land_255; apply Z.mod_pos_bound; lia).
  rewrite !land_255, Z.shiftr_div_pow2 by lia.
  change (2 ^ 8) with 256. change 65536 with (256 * 256).
  rewrite Z.rem_mul_r by lia. lia.
Qed.

End Bits.

(** * Facts about the flag register *)

Section FlagsFacts.
Import Flags.

Lemma valid_bit_nonneg (k : Z) : In k _valid_bits -> 0 <= k.
Proof. unfold _valid_bits, CARRY, PARITY, AUX_CARRY, ZERO, SIGN. simpl. lia. Qed.

Lemma py_in_spec (v : pyval) (t : list Z) :
  py_in v t = true <-> exists k, py_as_int v = Some k /\ In k t.
Proof.
  unfold py_in, py_eq_int. rewrite existsb_exists. split.
  - intros (n & Hn & Heq). destruct (py_as_int v) as [z |]; [| done].
    apply bool_decide_eq_true in Heq. subst. eauto.
  - intros (k & -> & Hk). exists k. split; [done |]. by apply bool_decide_eq_true.
Qed.

Lemma py_in_int (k : Z) (t : list Z) : py_in (PyInt k) t = true <-> In k t.
Proof.
  rewrite py_in_spec. simpl. split.
  - intros (z & [= ->] & Hz). done.
  - eauto.
Qed.

Lemma py_in_int_false (k : Z) (t : list Z) : py_in (PyInt k) t = false <-> ~ In k t.
Proof. rewrite <- py_in_int. destruct (py_in (PyInt k) t); split; congruence. Qed.

(** A value accepted by the validity test denotes one of the five bit
    positions, and [2 ** bit] is that power of two. *)
Lemma valid_pow2 (bit : pyval) :
  py_in bit _valid_bits = true ->
  exists k, In k _valid_bits /\ py_pow2 bit = Ok (2 ^ k).
Proof.
  intros Hin. apply py_in_spec in Hin as (k & Hk & Hin).
  exists k. split; [done |]. pose proof (valid_bit_nonneg k Hin) as Hpos.
  destruct bit as [z | b | s |]; simpl in Hk; try done.
  - injection Hk as ->. simpl. by rewrite bool_decide_eq_true_2.
  - injection Hk as <-. done.
Qed.

Lemma _set_flag_pow2 (bit : pyval) (k flags : Z) :
  py_pow2 bit = Ok (2 ^ k) -> _set_flag bit flags = (Ok tt, Z.lor flags (2 ^ k)).
Proof. intros Hp. unfold _set_flag, bind, lift, get, put. by rewrite Hp. Qed.

Lemma _clear_flag_pow2 (bit : pyval) (k flags : Z) :
  py_pow2 bit = Ok (2 ^ k) ->
  _clear_flag bit flags = (Ok tt, Z.land flags (Z.lnot (2 ^ k))).
Proof. intros Hp. unfold _clear_flag, bind, lift, get, put. by rewrite Hp. Qed.

(** [set] either rejects its argument and leaves the word alone, or ors
    in the power of two of an addressable position. *)
Lemma set_cases (bit : pyval) (flags : Z) :
  (py_in bit _valid_bits = false /\
   set bit flags = (Raise (InvalidFlagException bit), flags)) \/
  (exists k, In k _valid_bits /\ py_in bit _valid_bits = true /\
             set bit flags = (Ok tt, Z.lor flags (2 ^ k))).
Proof.
  unfold set. destruct (py_in bit _valid_bits) eqn:Hin; simpl.
  - right. destruct (valid_pow2 bit Hin) as (k & Hk & Hp).
    exists k. by rewrite (_set_flag_pow2 _ k).
  - left. done.
Qed.

Lemma clear_cases (bit : pyval) (flags : Z) :
  (py_in bit _valid_bits = false /\
   clear bit flags = (Raise (InvalidFlagException bit), flags)) \/
  (exists k, In k _valid_bits /\ py_in bit _valid_bits = true /\
             clear bit flags = (Ok tt, Z.land flags (Z.lnot (2 ^ k)))).
Proof.
  unfold clear. destruct (py_in bit _valid_bits) eqn:Hin; simpl.
  - right. destruct (valid_pow2 bit Hin) as (k & Hk & Hp).
    exists k. by rewrite (_clear_flag_pow2 _ k).
  - left. done.
Qed.

Lemma set_valid (k flags : Z) :
  In k _valid_bits -> set (PyInt k) flags = (Ok tt, Z.lor flags (2 ^ k)).
Proof.
  intros Hk. unfold set. rewrite (proj2 (py_in_int k _) Hk). simpl.
  apply _set_flag_pow2. simpl.
  by rewrite bool_decide_eq_true_2 by by apply valid_bit_nonneg.
Qed.

Lemma clear_valid (k flags : Z) :
  In k _valid_bits ->
  clear (PyInt k) flags = (Ok tt, Z.land flags (Z.lnot (2 ^ k))).
Proof.
  intros Hk. unfold clear. rewrite (proj2 (py_in_int k _) Hk). simpl.
  apply _clear_flag_pow2. simpl.
  by rewrite bool_decide_eq_true_2 by by apply valid_bit_nonneg.
Qed.

Lemma getitem_valid (k flags : Z) :
  In k _valid_bits ->
  __getitem__ (PyInt k) flags = (Ok (Z.b2z (Z.testbit flags k)), flags).
Proof.
  intros Hk. unfold __getitem__. rewrite (proj2 (py_in_int k _) Hk). simpl.
  unfold bind, get, ret. by rewrite read_bit by by apply valid_bit_nonneg.
Qed.

End FlagsFacts.

Section FlagsClaims.
Import Flags.

(** C7: for every addressable bit [b] and every flag word, [set(b)]
    returns and makes the indexed read of [b] give 1, [clear(b)] returns
    and makes it give 0, and every other bit of the word is unchanged by
    either call. *)
Theorem C7_set_clear_read_frame (b flags : Z) :
  In b _valid_bits ->
  (outcome (set (PyInt b)) flags = Ok tt /\
   outcome (__getitem__ (PyInt b)) (after (set (PyInt b)) flags) = Ok 1 /\
   forall i, i <> b ->
     Z.testbit (after (set (PyInt b)) flags) i = Z.testbit flags i) /\
  (outcome (clear (PyInt b)) flags = Ok tt /\
   outcome (__getitem__ (PyInt b)) (after (clear (PyInt b)) flags) = Ok 0 /\
   forall i, i <> b ->
     Z.testbit (after (clear (PyInt b)) flags) i = Z.testbit flags i).
Proof.
  intros Hb. pose proof (valid_bit_nonneg b Hb) as Hpos.
  unfold outcome, after. rewrite set_valid, clear_valid by done.
  rewrite !getitem_valid by done. simpl.
  rewrite lor_pow2_bits, land_lnot_pow2_bits by done.
  rewrite !decide_True by done. simpl.
  repeat split; try done; intros i Hi.
  - rewrite lor_pow2_bits by done. by rewrite decide_False.
  - rewrite land_lnot_pow2_bits by done. by rewrite decide_False.
Qed.

Lemma C7_witness :
  In SIGN _valid_bits /\
  outcome (__getitem__ (PyInt SIGN)) (after (set (PyInt SIGN)) __init__) = Ok 1 /\
  outcome (__getitem__ (PyInt SIGN)) (after (clear (PyInt SIGN)) 255) = Ok 0.
Proof.
  assert (Hin : In SIGN _valid_bits) by (simpl; tauto).
  split; [exact Hin |]. split.
  - exact (proj1 (proj2 (proj1 (C7_set_clear_read_frame SIGN __init__ Hin)))).
  - exact (proj1 (proj2 (proj2 (C7_set_clear_read_frame SIGN 255 Hin)))).
Defined.

(** C8: the named [set]/[clear] raise [InvalidFlagException] for a bit
    outside the five addressable positions; the indexed read and write
    raise [IndexError] for such an integer bit, [TypeError] for a key whose
    type is not [int], and the indexed write raises [ValueError] for an
    addressable bit when the value equals neither 0 nor 1; whenever one of
    the four calls raises, the flag word is the one before the call. *)
Theorem C8_flag_error_kinds (flags : Z) :
  (forall bit, py_in bit _valid_bits = false ->
     outcome (set bit) flags = Raise (InvalidFlagException bit) /\
     outcome (clear bit) flags = Raise (InvalidFlagException bit)) /\
  (forall k value, ~ In k _valid_bits ->
     outcome (__getitem__ (PyInt k)) flags = Raise (IndexError (PyInt k)) /\
     outcome (__setitem__ (PyInt k) value) flags = Raise (IndexError (PyInt k))) /\
  (forall key value, (forall z, key <> PyInt z) ->
     exists msg,
       outcome (__getitem__ key) flags = Raise (TypeError msg) /\
       outcome (__setitem__ key value) flags = Raise (TypeError msg)) /\
  (forall k value, In k _valid_bits ->
     py_eq_int value 0 = false -> py_eq_int value 1 = false ->
     exists msg, outcome (__setitem__ (PyInt k) value) flags = Raise (ValueError msg)) /\
  (forall bit key value e,
     (outcome (set bit) flags = Raise e -> after (set bit) flags = flags) /\
     (outcome (clear bit) flags = Raise e -> after (clear bit) flags = flags) /\
     (outcome (__getitem__ key) flags = Raise e ->
      after (__getitem__ key) flags = flags) /\
     (outcome (__setitem__ key value) flags = Raise e ->
      after (__setitem__ key value) flags = flags)).
Proof.
  unfold outcome, after. repeat apply conj.
  - intros bit Hbit.
    destruct (set_cases bit flags) as [[_ ->] | (k & _ & Hin & _)];
      [| congruence].
    destruct (clear_cases bit flags) as [[_ ->] | (k & _ & Hin & _)];
      [done | congruence].
  - intros k value Hk. apply py_in_int_false in Hk.
    unfold __getitem__, __setitem__. by rewrite Hk.
  - intros key value Hkey. exists "Expected bit-number of flag"%string.
    destruct key; try done. by destruct (Hkey z).
  - intros k value Hk H0 H1. eexists.
    unfold __setitem__. rewrite (proj2 (py_in_int k _) Hk), H0, H1. done.
  - intros bit key value e. repeat apply conj.
    + destruct (set_cases bit flags) as [[_ ->] | (k & _ & _ & ->)]; done.
    + destruct (clear_cases bit flags) as [[_ ->] | (k & _ & _ & ->)]; done.
    + unfold __getitem__. destruct key; try done.
      by destruct (py_in (PyInt z) _valid_bits).
    + unfold __setitem__. destruct key as [k | | |]; try done.
      destruct (py_in (PyInt k) _valid_bits) eqn:Hin; [| done]. simpl.
      apply py_in_int in Hin.
      assert (Hp : py_pow2 (PyInt k) = Ok (2 ^ k)).
      { simpl. by rewrite bool_decide_eq_true_2 by by apply valid_bit_nonneg. }
      destruct (py_eq_int value 0).
      { by rewrite (_clear_flag_pow2 _ k). }
      destruct (py_eq_int value 1); [| done].
      by rewrite (_set_flag_pow2 _ k).
Qed.

Lemma C8_witness :
  outcome (set (PyInt 1)) __init__ = Raise (InvalidFlagException (PyInt 1)) /\
  outcome (__getitem__ (PyInt 1)) __init__ = Raise (IndexError (PyInt 1)) /\
  (exists msg,
     outcome (__getitem__ (PyStr "carry")) __init__ = Raise (TypeError msg)) /\
  (exists msg,
     outcome (__setitem__ (PyInt CARRY) (PyInt 2)) __init__ = Raise (ValueError msg)) /\
  after (__setitem__ (PyInt CARRY) (PyInt 2)) __init__ = __init__.
Proof.
  destruct (C8_flag_error_kinds __init__) as (Hnamed & Hrange & Htype & Hvalue & Hkeep).
  split; [exact (proj1 (Hnamed (PyInt 1) eq_refl)) |].
  split.
  { refine (proj1 (Hrange 1 PyNone _)). vm_compute. intuition discriminate. }
  split.
  { destruct (Htype (PyStr "carry") PyNone) as (msg & Hget & _).
    - intros z. discriminate.
    - exists msg. exact Hget. }
  split.
  { refine (Hvalue CARRY (PyInt 2) _ eq_refl eq_refl). simpl. tauto. }
  refine (proj2 (proj2 (proj2
    (Hkeep PyNone (PyInt CARRY) (PyInt 2)
           (ValueError "Flags can only be 1 or 0")))) eq_refl).
Defined.

End FlagsClaims.

(** * The parity loop counts the 1-bits *)

Section Parity.
Import Flags.

Lemma popcount_double (x : Z) (b : bool) :
  0 <= x -> popcount (2 * x + Z.b2z b) = popcount x + Z.b2z b.
Proof.
  intros Hx. destruct x as [| p | p]; [by destruct b | | lia].
  destruct b; cbn [Z.b2z].
  - change (2 * Z.pos p + 1) with (Z.pos p~1). cbn [popcount pos_popcount]. lia.
  - rewrite Z.add_0_r. change (2 * Z.pos p) with (Z.pos p~0).
    cbn [popcount pos_popcount]. lia.
Qed.

Lemma parity_step_div (data count : Z) :
  parity_step (data, count) = (data / 2, count + data mod 2).
Proof.
  unfold parity_step. f_equal.
  - rewrite Z.shiftr_div_pow2 by lia. reflexivity.
  - change (Z.land data 1) with (Z.land data (Z.ones 1)).
    rewrite Z.land_ones by lia. change (2 ^ 1) with 2.
    pose proof (Z.mod_pos_bound data 2 ltac:(lia)) as Hb.
    case_bool_decide; lia.
Qed.

(** After [n] turns, [count] has grown by the number of 1-bits among the
    low [n] bits of [data]. *)
Lemma parity_loop (n : nat) :
  forall data count,
    snd (Nat.iter n parity_step (data, count))
    = count + popcount (data mod 2 ^ Z.of_nat n).
Proof.
  induction n as [| n IH]; intros data count.
  - simpl. rewrite Z.mod_1_r. simpl. lia.
  - rewrite Nat.iter_succ_r, parity_step_div, IH.
    rewrite Nat2Z.inj_succ, Z.pow_succ_r by lia.
    rewrite (Z.rem_mul_r data 2 (2 ^ Z.of_nat n)) by lia.
    rewrite <- (Z.bit0_mod data).
    rewrite (Z.add_comm (Z.b2z _) (2 * _)), popcount_double; [lia |].
    apply Z.mod_pos_bound. lia.
Qed.

Lemma parity_count_byte (data : Z) :
  0 <= data <= 255 -> parity_count data = popcount data.
Proof.
  intros Hd. unfold parity_count. rewrite parity_loop.
  change (2 ^ Z.of_nat 8) with 256. rewrite Z.mod_small by lia. lia.
Qed.

End Parity.

(** * Derived flags and the reserved bits *)

Section FlagsDerived.
Import Flags.

(** C4: for every byte [d], [calculate_parity(d)] returns, leaves PARITY
    reading 1 when the number of 1-bits of [d] is even and 0 when it is
    odd, and changes no other bit of the flag word. *)
Theorem C4_calculate_parity (d flags : Z) :
  0 <= d <= 255 ->
  outcome (calculate_parity d) flags = Ok tt /\
  outcome (__getitem__ (PyInt PARITY)) (after (calculate_parity d) flags)
  = Ok (if Z.even (popcount d) then 1 else 0) /\
  forall i, i <> PARITY ->
    Z.testbit (after (calculate_parity d) flags) i = Z.testbit flags i.
Proof.
  intros Hd.
  assert (Hin : In PARITY _valid_bits) by (simpl; tauto).
  assert (Hpos : 0 <= PARITY) by by apply valid_bit_nonneg.
  unfold calculate_parity, outcome, after.
  rewrite parity_count_byte, Zeven_mod by done.
  case_bool_decide as Hpar.
  - rewrite (proj2 (Z.eqb_eq _ _) Hpar), set_valid by done. cbn [fst snd].
    rewrite getitem_valid, lor_pow2_bits, decide_True by done.
    repeat split. intros i Hi.
    rewrite lor_pow2_bits by done. by rewrite decide_False.
  - rewrite (proj2 (Z.eqb_neq _ _) Hpar), clear_valid by done. cbn [fst snd].
    rewrite getitem_valid, land_lnot_pow2_bits, decide_True by done.
    repeat split. intros i Hi.
    rewrite land_lnot_pow2_bits by done. by rewrite decide_False.
Qed.

Lemma C4_witness :
  0 <= 255 <= 255 /\ 0 <= 1 <= 255 /\
  outcome (__getitem__ (PyInt PARITY)) (after (calculate_parity 255) __init__) = Ok 1 /\
  outcome (__getitem__ (PyInt PARITY)) (after (calculate_parity 1) 255) = Ok 0.
Proof.
  assert (H255 : 0 <= 255 <= 255) by lia.
  assert (H1 : 0 <= 1 <= 255) by lia.
  split; [exact H255 |]. split; [exact H1 |]. split.
  - exact (proj1 (proj2 (C4_calculate_parity 255 __init__ H255))).
  - exact (proj1 (proj2 (C4_calculate_parity 1 255 H1))).
Defined.

End FlagsDerived.

Section FlagsReserved.
Import Flags.
Variable is_negative : Z -> bool.

Lemma set_keeps (bit : pyval) (flags i : Z) :
  ~ In i _valid_bits ->
  Z.testbit (after (set bit) flags) i = Z.testbit flags i.
Proof.
  intros Hi. unfold after.
  destruct (set_cases bit flags) as [[_ ->] | (k & Hk & _ & ->)]; [done |].
  simpl. rewrite lor_pow2_bits by by apply valid_bit_nonneg.
  rewrite decide_False; [done | congruence].
Qed.

Lemma clear_keeps (bit : pyval) (flags i : Z) :
  ~ In i _valid_bits ->
  Z.testbit (after (clear bit) flags) i = Z.testbit flags i.
Proof.
  intros Hi. unfold after.
  destruct (clear_cases bit flags) as [[_ ->] | (k & Hk & _ & ->)]; [done |].
  simpl. rewrite land_lnot_pow2_bits by by apply valid_bit_nonneg.
  rewrite decide_False; [done | congruence].
Qed.

Lemma setitem_keeps (key value : pyval) (flags i : Z) :
  ~ In i _valid_bits ->
  Z.testbit (after (__setitem__ key value) flags) i = Z.testbit flags i.
Proof.
  intros Hi. unfold after, __setitem__.
  destruct key as [k | | |]; try done.
  destruct (py_in (PyInt k) _valid_bits) eqn:Hin; [| done]. simpl.
  apply py_in_int in Hin. pose proof (valid_bit_nonneg k Hin) as Hpos.
  assert (Hp : py_pow2 (PyInt k) = Ok (2 ^ k)).
  { simpl. by rewrite bool_decide_eq_true_2. }
  destruct (py_eq_int value 0).
  { rewrite (_clear_flag_pow2 _ k) by done. simpl.
    rewrite land_lnot_pow2_bits by done. rewrite decide_False; [done | congruence]. }
  destruct (py_eq_int value 1); [| done].
  rewrite (_set_flag_pow2 _ k) by done. simpl.
  rewrite lor_pow2_bits by done. rewrite decide_False; [done | congruence].
Qed.

Lemma clear_all_keeps (flags i : Z) :
  ~ In i _valid_bits ->
  Z.testbit (after clear_all flags) i = Z.testbit flags i.
Proof.
  intros Hi.
  assert (Hgen : forall l w, (forall k, In k l -> In k _valid_bits) ->
            Z.testbit (after (for_each l (fun f => _clear_flag (PyInt f))) w) i
            = Z.testbit w i).
  { induction l as [| k l IH]; intros w Hl; [done |].
    assert (Hk : In k _valid_bits) by (apply Hl; by left).
    pose proof (valid_bit_nonneg k Hk) as Hpos.
    unfold after in *. cbn [for_each]. unfold bind at 1.
    rewrite (_clear_flag_pow2 _ k)
      by (simpl; by rewrite bool_decide_eq_true_2).
    rewrite IH by (intros k' Hk'; apply Hl; by right).
    rewrite land_lnot_pow2_bits by done.
    rewrite decide_False; [done | congruence]. }
  apply Hgen. auto.
Qed.

(** No public operation touches a bit outside the five addressable
    positions. *)
Lemma effect_keeps (o : op) (flags i : Z) :
  ~ In i _valid_bits ->
  Z.testbit (effect is_negative o flags) i = Z.testbit flags i.
Proof.
  intros Hi. destruct o as [bit | bit | key | key value | | | | data | data | val];
    cbn [effect].
  - by apply set_keeps.
  - by apply clear_keeps.
  - unfold after, __getitem__. destruct key as [k | | |]; try done.
    by destruct (py_in (PyInt k) _valid_bits).
  - by apply setitem_keeps.
  - by apply clear_all_keeps.
  - done.
  - done.
  - unfold calculate_parity. case_bool_decide;
      [by apply set_keeps | by apply clear_keeps].
  - unfold set_zero. case_bool_decide;
      [by apply set_keeps | by apply clear_keeps].
  - unfold set_sign, after, bind.
    pose proof (clear_keeps (PyInt SIGN) flags i Hi) as Hc. unfold after in Hc.
    destruct (clear (PyInt SIGN) flags) as [[[] | e] w]; simpl in *; [| done].
    destruct (is_negative val); [| done].
    rewrite <- Hc. apply (set_keeps (PyInt SIGN) w i Hi).
Qed.

Lemma run_keeps (ops : list op) (flags i : Z) :
  ~ In i _valid_bits ->
  Z.testbit (run is_negative ops flags) i = Z.testbit flags i.
Proof.
  intros Hi. revert flags. unfold run.
  induction ops as [| o ops IH]; intros flags; [done |].
  cbn [fold_left]. rewrite IH. by apply effect_keeps.
Qed.

(** C5: a fresh flag register has value 2, so bit 1 is set and the five
    addressable bits read 0; bit 1 is still set after every sequence of
    public operations, whatever their arguments and whether they return
    or raise. *)
Theorem C5_fresh_word_and_bit_one (ops : list op) :
  __init__ = 2 /\
  Z.testbit __init__ 1 = true /\
  Forall (fun b => outcome (__getitem__ (PyInt b)) __init__ = Ok 0) _valid_bits /\
  Z.testbit (run is_negative ops __init__) 1 = true.
Proof.
  split; [done |]. split; [done |]. split.
  - repeat constructor.
  - rewrite run_keeps; [done |].
    unfold _valid_bits, CARRY, PARITY, AUX_CARRY, ZERO, SIGN. simpl. lia.
Qed.

End FlagsReserved.

(** * Facts about the register file *)

Section RegistersFacts.
Import Registers.

Lemma subscript_some (k v : Z) (regs : gmap Z Z) :
  regs !! k = Some v -> subscript k regs = (Ok v, regs).
Proof. intros Hk. unfold subscript, bind, get. by rewrite Hk. Qed.

Lemma subscript_none (k : Z) (regs : gmap Z Z) :
  regs !! k = None -> subscript k regs = (Raise (KeyError k), regs).
Proof. intros Hk. unfold subscript, bind, get. by rewrite Hk. Qed.

Lemma subscript_after (k : Z) (regs : gmap Z Z) : after (subscript k) regs = regs.
Proof.
  unfold after. destruct (regs !! k) as [v |] eqn:Hk.
  - by rewrite (subscript_some k v).
  - by rewrite subscript_none.
Qed.

Lemma get_value_from_pair_some (rp : RegisterPair) (h l : Z) (regs : gmap Z Z) :
  regs !! hi rp = Some h -> regs !! lo rp = Some l ->
  get_value_from_pair rp regs = (Ok (Z.lor (Z.shiftl h 8) l), regs).
Proof.
  intros Hh Hl. unfold get_value_from_pair, bind.
  by rewrite (subscript_some _ h), (subscript_some _ l).
Qed.

Lemma get_value_from_pair_after (rp : RegisterPair) (regs : gmap Z Z) :
  after (get_value_from_pair rp) regs = regs.
Proof.
  unfold after, get_value_from_pair, bind.
  pose proof (subscript_after (hi rp) regs) as Hh.
  pose proof (subscript_after (lo rp) regs) as Hl. unfold after in Hh, Hl.
  destruct (subscript (hi rp) regs) as [[h | e] s]; simpl in Hh; subst s; [| done].
  by destruct (subscript (lo rp) regs) as [[l | e] s]; simpl in Hl; subst s.
Qed.

Lemma get_address_from_pair_after (register : pyval) (regs : gmap Z Z) :
  after (get_address_from_pair register) regs = regs.
Proof.
  unfold get_address_from_pair.
  destruct (py_as_int register ≫= (_pairs !!.)) as [rp |]; [| done].
  apply (get_value_from_pair_after rp).
Qed.

Lemma set_value_pair_run (rp : RegisterPair) (val : Z) (regs : gmap Z Z) :
  set_value_pair rp val regs
  = (Ok tt, <[lo rp := Z.land val 255]>
              (<[hi rp := Z.land (Z.shiftr val 8) 255]> regs)).
Proof. reflexivity. Qed.

Lemma getitem_int (r : Z) (regs : gmap Z Z) :
  __getitem__ (PyInt r) regs
  = (match regs !! r with
     | Some v => Ok v
     | None => Raise (IndexError (PyInt r))
     end, regs).
Proof.
  unfold __getitem__, absent, bind, get, ret.
  destruct (regs !! r) as [v |] eqn:Hr.
  - rewrite bool_decide_eq_false_2 by done. by rewrite (subscript_some r v).
  - by rewrite bool_decide_eq_true_2.
Qed.

Lemma setitem_int (r val : Z) (regs : gmap Z Z) :
  __setitem__ (PyInt r) val regs
  = match regs !! r with
    | Some _ => (Ok tt, <[r := val]> regs)
    | None => (Raise (IndexError (PyInt r)), regs)
    end.
Proof.
  unfold __setitem__, absent, bind, get, ret.
  destruct (regs !! r) as [v |] eqn:Hr.
  - by rewrite bool_decide_eq_false_2.
  - by rewrite bool_decide_eq_true_2.
Qed.

Lemma land_255_byte (v : Z) : 0 <= Z.land v 255 <= 255.
Proof. rewrite land_255. pose proof (Z.mod_pos_bound v 256). lia. Qed.

End RegistersFacts.

Section RegistersClaims.
Import Registers.

(** C2: for each of the pairs (B,C), (D,E), (H,L) and every non-negative
    [v], [set_value_pair(pair, v)] returns, leaves [(v >> 8) & 0xff] in the
    high register and [v & 0xff] in the low one, and [get_value_from_pair]
    then returns [v mod 65536]. *)
Theorem C2_pair_write_then_read (rp : RegisterPair) (v : Z) (regs : gmap Z Z) :
  In rp _rp -> 0 <= v ->
  outcome (set_value_pair rp v) regs = Ok tt /\
  after (set_value_pair rp v) regs !! hi rp = Some (Z.land (Z.shiftr v 8) 255) /\
  after (set_value_pair rp v) regs !! lo rp = Some (Z.land v 255) /\
  outcome (get_value_from_pair rp) (after (set_value_pair rp v) regs)
  = Ok (v mod 65536).
Proof.
  intros Hrp _.
  assert (Hne : hi rp <> lo rp).
  { unfold _rp, B, C, D, E, H, L in Hrp. simpl in Hrp.
    destruct Hrp as [<- | [<- | [<- | []]]]; done. }
  unfold outcome, after. rewrite set_value_pair_run. simpl.
  assert (Hh : <[lo rp := Z.land v 255]>
                 (<[hi rp := Z.land (Z.shiftr v 8) 255]> regs) !! hi rp
               = Some (Z.land (Z.shiftr v 8) 255)).
  { rewrite lookup_insert_ne by done. apply lookup_insert_eq. }
  assert (Hl : <[lo rp := Z.land v 255]>
                 (<[hi rp := Z.land (Z.shiftr v 8) 255]> regs) !! lo rp
               = Some (Z.land v 255)) by apply lookup_insert_eq.
  repeat split; try done.
  rewrite (get_value_from_pair_some rp _ _ _ Hh Hl). simpl.
  by rewrite split_assemble.
Qed.

Lemma C2_witness :
  In (MkRegisterPair H L) _rp /\ 0 <= 0x1234 /\
  after (set_value_pair (MkRegisterPair H L) 0x1234) __init__ !! H = Some 0x12 /\
  after (set_value_pair (MkRegisterPair H L) 0x1234) __init__ !! L = Some 0x34 /\
  outcome (get_value_from_pair (MkRegisterPair H L))
          (after (set_value_pair (MkRegisterPair H L) 0x1234) __init__)
  = Ok 0x1234.
Proof.
  assert (Hin : In (MkRegisterPair H L) _rp) by (simpl; tauto).
  assert (Hv : 0 <= 0x1234) by lia.
  destruct (C2_pair_write_then_read (MkRegisterPair H L) 0x1234 __init__ Hin Hv)
    as (_ & Hhi & Hlo & Hread).
  split; [exact Hin |]. split; [exact Hv |].
  split; [exact Hhi |]. split; [exact Hlo | exact Hread].
Defined.

(** C3: for non-negative [opcode] and [bit_offset],
    [get_register_from_opcode] returns [(opcode >> bit_offset) & 0b111]
    without rejecting anything, and the call leaves the registers as they
    were. *)
Theorem C3_register_from_opcode (opcode bit_offset : Z) (regs : gmap Z Z) :
  0 <= opcode -> 0 <= bit_offset ->
  get_register_from_opcode opcode bit_offset
  = Ok (Z.land (Z.shiftr opcode bit_offset) 7) /\
  effect (OpGetRegisterFromOpcode opcode bit_offset) regs = regs.
Proof.
  intros _ Hoff. split; [| done].
  unfold get_register_from_opcode. rewrite bool_decide_eq_false_2 by lia.
  f_equal. rewrite Z.shiftr_land, Z.shiftr_shiftl_l by done.
  by rewrite Z.sub_diag.
Qed.

Lemma C3_witness :
  0 <= 0x7e /\ 0 <= 3 /\
  get_register_from_opcode 0x7e 3 = Ok 7.
Proof.
  assert (Hop : 0 <= 0x7e) by lia.
  assert (Hoff : 0 <= 3) by lia.
  split; [exact Hop |]. split; [exact Hoff |].
  exact (proj1 (C3_register_from_opcode 0x7e 3 __init__ Hop Hoff)).
Defined.

End RegistersClaims.

Section RegistersErrors.
Import Registers.

Lemma pairs_lookup_other (k : Z) : ~ In k [B; D; H] -> _pairs !! k = None.
Proof.
  intros Hk. unfold _pairs.
  rewrite !lookup_insert_ne, lookup_singleton_ne; [done | ..];
    intros <-; apply Hk; simpl; tauto.
Qed.

Lemma get_address_from_pair_code (code h l : Z) (rp : RegisterPair) (regs : gmap Z Z) :
  _pairs !! code = Some rp ->
  regs !! hi rp = Some h -> regs !! lo rp = Some l ->
  outcome (get_address_from_pair (PyInt code)) regs = Ok (Z.lor (Z.shiftl h 8) l).
Proof.
  intros Hp Hh Hl. unfold outcome, get_address_from_pair. cbn [py_as_int mbind option_bind].
  rewrite Hp. fold (get_value_from_pair rp).
  by rewrite (get_value_from_pair_some rp h l).
Qed.

(** C6: [get_address_from_pair] returns [(hi << 8) | lo] of the current
    contents of (B,C), (D,E), (H,L) for the codes B, D, H; it raises
    [InvalidPairException] for every argument that is not one of B, D, H;
    and in every case the registers are the ones before the call. *)
Theorem C6_address_from_pair (regs : gmap Z Z) :
  (forall h l, regs !! B = Some h -> regs !! C = Some l ->
     outcome (get_address_from_pair (PyInt B)) regs = Ok (Z.lor (Z.shiftl h 8) l)) /\
  (forall h l, regs !! D = Some h -> regs !! E = Some l ->
     outcome (get_address_from_pair (PyInt D)) regs = Ok (Z.lor (Z.shiftl h 8) l)) /\
  (forall h l, regs !! H = Some h -> regs !! L = Some l ->
     outcome (get_address_from_pair (PyInt H)) regs = Ok (Z.lor (Z.shiftl h 8) l)) /\
  (forall register, py_in register [B; D; H] = false ->
     outcome (get_address_from_pair register) regs = Raise InvalidPairException) /\
  Forall (fun code =>
            outcome (get_address_from_pair (PyInt code)) regs
            = Raise InvalidPairException) [C; E; L; M_; A] /\
  (forall register, after (get_address_from_pair register) regs = regs).
Proof.
  repeat apply conj.
  - intros h l. by apply (get_address_from_pair_code B h l (MkRegisterPair B C)).
  - intros h l. by apply (get_address_from_pair_code D h l (MkRegisterPair D E)).
  - intros h l. by apply (get_address_from_pair_code H h l (MkRegisterPair H L)).
  - intros register Hreg. unfold outcome, get_address_from_pair.
    destruct (py_as_int register) as [k |] eqn:Hk; [| done].
    cbn [mbind option_bind]. rewrite pairs_lookup_other; [done |].
    intros Hin. assert (py_in register [B; D; H] = true); [| congruence].
    apply py_in_spec. eauto.
  - repeat constructor.
  - intros register. apply get_address_from_pair_after.
Qed.

Lemma C6_witness :
  outcome (get_address_from_pair (PyInt H))
          (<[L := 0x00]> (<[H := 0x20]> __init__)) = Ok 0x2000 /\
  outcome (get_address_from_pair (PyInt C)) __init__ = Raise InvalidPairException /\
  outcome (get_address_from_pair PyNone) __init__ = Raise InvalidPairException.
Proof.
  split; [| split].
  - refine (proj1 (proj2 (proj2
      (C6_address_from_pair (<[L := 0x00]> (<[H := 0x20]> __init__)))))
      0x20 0x00 _ _); reflexivity.
  - exact (proj1 (proj2 (proj2 (proj2 (C6_address_from_pair __init__))))
             (PyInt C) eq_refl).
  - exact (proj1 (proj2 (proj2 (proj2 (C6_address_from_pair __init__))))
             PyNone eq_refl).
Defined.

(** C10: [get_pairs] returns the (B,C), (D,E), (H,L) descriptor for the
    selectors 0, 1, 2, the (H,L), (D,E), (B,C) descriptor for -1, -2, -3,
    and for every other integer raises the out-of-range error of list
    indexing, which is not [InvalidPairException]. *)
Theorem C10_pair_from_encoding (regs : gmap Z Z) :
  outcome (get_pairs (PyInt 0)) regs = Ok (MkRegisterPair B C) /\
  outcome (get_pairs (PyInt 1)) regs = Ok (MkRegisterPair D E) /\
  outcome (get_pairs (PyInt 2)) regs = Ok (MkRegisterPair H L) /\
  outcome (get_pairs (PyInt (-1))) regs = Ok (MkRegisterPair H L) /\
  outcome (get_pairs (PyInt (-2))) regs = Ok (MkRegisterPair D E) /\
  outcome (get_pairs (PyInt (-3))) regs = Ok (MkRegisterPair B C) /\
  (forall i, 3 <= i \/ i < -3 ->
     outcome (get_pairs (PyInt i)) regs
     = Raise (IndexError (PyStr "list index out of range")) /\
     outcome (get_pairs (PyInt i)) regs <> Raise InvalidPairException).
Proof.
  repeat apply conj; try reflexivity.
  intros i Hi.
  assert (Hout : outcome (get_pairs (PyInt i)) regs
                 = Raise (IndexError (PyStr "list index out of range"))).
  { unfold outcome, get_pairs, lift, py_list_getitem.
    change (Z.of_nat (length _rp)) with 3. cbv zeta.
    destruct (bool_decide (i < 0)) eqn:Hneg.
    - apply bool_decide_eq_true in Hneg. by rewrite bool_decide_eq_false_2 by lia.
    - apply bool_decide_eq_false in Hneg. by rewrite bool_decide_eq_false_2 by lia. }
  by rewrite Hout.
Qed.

Lemma C10_witness :
  (3 <= 3 \/ 3 < -3) /\ (3 <= -4 \/ -4 < -3) /\
  outcome (get_pairs (PyInt 3)) __init__
  = Raise (IndexError (PyStr "list index out of range")) /\
  outcome (get_pairs (PyInt (-4))) __init__
  = Raise (IndexError (PyStr "list index out of range")).
Proof.
  assert (H3 : 3 <= 3 \/ 3 < -3) by lia.
  assert (H4 : 3 <= -4 \/ -4 < -3) by lia.
  pose proof (proj2 (proj2 (proj2 (proj2 (proj2 (proj2
    (C10_pair_from_encoding __init__))))))) as Hout.
  split; [exact H3 |]. split; [exact H4 |]. split.
  - exact (proj1 (Hout 3 H3)).
  - exact (proj1 (Hout (-4) H4)).
Defined.

End RegistersErrors.

(** * The cells of the register file *)

Section RegistersCells.
Import Registers.

Lemma seven_cells_init : seven_cells __init__.
Proof.
  intros k. unfold __init__, scalar_codes. split.
  - intros [v Hv].
    repeat (rewrite lookup_insert in Hv; case_decide; [subst; simpl; tauto |]).
    rewrite lookup_singleton in Hv. case_decide; [subst; simpl; tauto | done].
  - simpl. intros [<- | [<- | [<- | [<- | [<- | [<- | [<- | []]]]]]]];
      by eexists.
Qed.

Lemma seven_cells_insert (k v : Z) (regs : gmap Z Z) :
  In k scalar_codes -> seven_cells regs -> seven_cells (<[k := v]> regs).
Proof.
  intros Hk Hcells j. rewrite lookup_insert. case_decide as Hj.
  - subst j. split; [done | by eexists].
  - apply Hcells.
Qed.

Lemma effect_seven_cells (o : op) (regs : gmap Z Z) :
  names_scalars o -> seven_cells regs -> seven_cells (effect o regs).
Proof.
  intros Ho Hcells.
  destruct o as [reg | reg val | register | rp | rp val | opcode off | enc];
    cbn [effect].
  - unfold after. destruct reg as [r | | |]; try done. by rewrite getitem_int.
  - unfold after. destruct reg as [r | | |]; try done. rewrite setitem_int.
    destruct (regs !! r) as [v |] eqn:Hr; [| done]. simpl.
    apply seven_cells_insert; [| done]. apply Hcells. by eexists.
  - by rewrite get_address_from_pair_after.
  - by rewrite get_value_from_pair_after.
  - unfold after. rewrite set_value_pair_run. simpl. destruct Ho as [Hhi Hlo].
    by do 2 (apply seven_cells_insert; [done |]).
  - done.
  - by destruct enc.
Qed.

(** Operations over the seven scalar codes keep the cells of a fresh
    register file. *)
Lemma run_seven_cells (ops : list op) :
  Forall names_scalars ops -> seven_cells (run ops __init__).
Proof.
  intros Hops. unfold run.
  assert (Hgen : forall regs, seven_cells regs ->
            seven_cells (fold_left (fun r o => effect o r) ops regs)).
  { induction Hops as [| o ops Ho _ IH]; intros regs Hregs; [done |].
    cbn [fold_left]. apply IH. by apply effect_seven_cells. }
  apply Hgen, seven_cells_init.
Qed.

(** On a register file whose cells are the seven that [__init__]
    creates, the indexed read and write return for the codes B, C, D, E,
    H, L, A, and a read after a write gives the written value; they raise
    [TypeError] for a key whose type is not [int] and [IndexError] for
    every other integer, M = 6 included. *)
Lemma indexed_access_seven_cells (regs : gmap Z Z) :
  seven_cells regs ->
  (forall r val, In r scalar_codes ->
     (exists v, regs !! r = Some v /\
                outcome (__getitem__ (PyInt r)) regs = Ok v) /\
     outcome (__setitem__ (PyInt r) val) regs = Ok tt /\
     outcome (__getitem__ (PyInt r)) (after (__setitem__ (PyInt r) val) regs)
     = Ok val) /\
  (forall key val, (forall z, key <> PyInt z) ->
     exists msg,
       outcome (__getitem__ key) regs = Raise (TypeError msg) /\
       outcome (__setitem__ key val) regs = Raise (TypeError msg)) /\
  (forall r val, ~ In r scalar_codes ->
     outcome (__getitem__ (PyInt r)) regs = Raise (IndexError (PyInt r)) /\
     outcome (__setitem__ (PyInt r) val) regs = Raise (IndexError (PyInt r))) /\
  outcome (__getitem__ (PyInt M_)) regs = Raise (IndexError (PyInt M_)).
Proof.
  intros Hcells.
  assert (Hout : forall r val, ~ In r scalar_codes ->
     outcome (__getitem__ (PyInt r)) regs = Raise (IndexError (PyInt r)) /\
     outcome (__setitem__ (PyInt r) val) regs = Raise (IndexError (PyInt r))).
  { intros r val Hr. unfold outcome. rewrite getitem_int, setitem_int.
    destruct (regs !! r) as [v |] eqn:Hv; [| done].
    destruct Hr. apply Hcells. by eexists. }
  repeat apply conj.
  - intros r val Hr. apply Hcells in Hr as [v Hv].
    unfold outcome, after. rewrite setitem_int, Hv. cbn [fst snd].
    rewrite !getitem_int, Hv, lookup_insert_eq. cbn [fst]. eauto.
  - intros key val Hkey. exists "Expected register number"%string.
    destruct key; try done. by destruct (Hkey z).
  - exact Hout.
  - refine (proj1 (Hout M_ 0 _)). unfold scalar_codes, B, C, D, E, H, L, A, M_.
    simpl. lia.
Qed.

Lemma indexed_access_seven_cells_fresh :
  seven_cells __init__ /\
  outcome (__getitem__ (PyInt A)) (after (__setitem__ (PyInt A) 0x42) __init__)
  = Ok 0x42 /\
  outcome (__getitem__ (PyInt M_)) __init__ = Raise (IndexError (PyInt M_)) /\
  outcome (__setitem__ (PyInt 8) 1) __init__ = Raise (IndexError (PyInt 8)).
Proof.
  destruct (indexed_access_seven_cells __init__ seven_cells_init)
    as (Hin & _ & Hout & HM).
  split; [exact seven_cells_init |]. split.
  { refine (proj2 (proj2 (Hin A 0x42 _))). simpl. tauto. }
  split; [exact HM |].
  refine (proj2 (Hout 8 1 _)). unfold scalar_codes, B, C, D, E, H, L, A.
  simpl. lia.
Defined.

End RegistersCells.

(** * Byte range of the registers *)

Section RegistersBytes.
Import Registers.

Lemma bytes_inv_init : bytes_inv __init__.
Proof.
  split.
  - intros k v Hv. unfold __init__ in Hv.
    repeat (rewrite lookup_insert in Hv; case_decide; [injection Hv; lia |]).
    rewrite lookup_singleton in Hv. case_decide; [injection Hv; lia | done].
  - intros k Hk. by apply seven_cells_init.
Qed.

Lemma bytes_inv_insert (k v : Z) (regs : gmap Z Z) :
  0 <= v <= 255 -> bytes_inv regs -> bytes_inv (<[k := v]> regs).
Proof.
  intros Hv [Hbytes Hcells]. split.
  - intros j w. rewrite lookup_insert. case_decide.
    + intros [= <-]. done.
    + apply Hbytes.
  - intros j Hj. rewrite lookup_insert. case_decide; [by eexists | by apply Hcells].
Qed.

Lemma effect_bytes_inv (o : op) (regs : gmap Z Z) :
  writes_byte o = true -> bytes_inv regs -> bytes_inv (effect o regs).
Proof.
  intros Ho Hinv.
  destruct o as [reg | reg val | register | rp | rp val | opcode off | enc];
    cbn [effect].
  - unfold after. destruct reg as [r | | |]; try done. by rewrite getitem_int.
  - unfold after. destruct reg as [r | | |]; try done. rewrite setitem_int.
    destruct (regs !! r) as [v |] eqn:Hr; [| done]. cbn [snd].
    apply bytes_inv_insert; [| done]. by apply bool_decide_eq_true in Ho.
  - by rewrite get_address_from_pair_after.
  - by rewrite get_value_from_pair_after.
  - unfold after. rewrite set_value_pair_run. cbn [snd].
    by do 2 (apply bytes_inv_insert; [apply land_255_byte |]).
  - done.
  - by destruct enc.
Qed.

Lemma run_bytes_inv (ops : list op) :
  forallb writes_byte ops = true -> bytes_inv (run ops __init__).
Proof.
  unfold run. generalize bytes_inv_init. generalize __init__.
  induction ops as [| o ops IH]; intros regs Hregs Hops; [done |].
  cbn [forallb] in Hops. apply andb_true_iff in Hops as [Ho Hops].
  cbn [fold_left]. apply IH; [| done]. by apply effect_bytes_inv.
Qed.

Lemma bytes_inv_scalars (regs : gmap Z Z) :
  bytes_inv regs -> scalars_are_bytes regs = true.
Proof.
  intros [Hbytes Hcells]. unfold scalars_are_bytes.
  apply forallb_forall. intros r Hr.
  destruct (Hcells r Hr) as [v Hv]. rewrite Hv.
  apply bool_decide_eq_true. by apply (Hbytes r).
Qed.

Lemma bytes_inv_pairs (regs : gmap Z Z) :
  bytes_inv regs -> pairs_are_words regs = true.
Proof.
  intros [Hbytes Hcells]. unfold pairs_are_words.
  apply forallb_forall. intros rp Hrp.
  assert (Hcodes : In (hi rp) scalar_codes /\ In (lo rp) scalar_codes).
  { unfold _rp in Hrp. simpl in Hrp.
    destruct Hrp as [<- | [<- | [<- | []]]]; simpl; tauto. }
  destruct Hcodes as [Hhi Hlo].
  destruct (Hcells _ Hhi) as [h Hh]. destruct (Hcells _ Hlo) as [l Hl].
  unfold outcome. rewrite (get_value_from_pair_some rp h l) by done. cbn [fst].
  apply bool_decide_eq_true.
  pose proof (Hbytes _ _ Hh). pose proof (Hbytes _ _ Hl).
  rewrite lor_shiftl_byte by lia. lia.
Qed.

(** C1, as amended: from a fresh register file, after any sequence of
    public operations whose indexed scalar writes store values in
    [[0,255]] (pair writes take any integer), every scalar register holds
    a value in [[0,255]] and every pair reads a value in [[0,65535]]. *)
Theorem C1_registers_stay_bytes (ops : list op) :
  forallb writes_byte ops = true ->
  scalars_are_bytes (run ops __init__) = true /\
  pairs_are_words (run ops __init__) = true.
Proof.
  intros Hops. pose proof (run_bytes_inv ops Hops) as Hinv.
  split; [by apply bytes_inv_scalars | by apply bytes_inv_pairs].
Qed.

Lemma C1_witness :
  forallb writes_byte
    [OpSetItem (PyInt A) 255;
     OpSetValuePair (MkRegisterPair H L) (-70000);
     OpSetItem (PyInt M_) 7;
     OpSetValuePair (MkRegisterPair D M_) 0x12345] = true /\
  scalars_are_bytes
    (run [OpSetItem (PyInt A) 255;
          OpSetValuePair (MkRegisterPair H L) (-70000);
          OpSetItem (PyInt M_) 7;
          OpSetValuePair (MkRegisterPair D M_) 0x12345] __init__) = true.
Proof.
  split; [reflexivity |].
  exact (proj1 (C1_registers_stay_bytes
    [OpSetItem (PyInt A) 255;
     OpSetValuePair (MkRegisterPair H L) (-70000);
     OpSetItem (PyInt M_) 7;
     OpSetValuePair (MkRegisterPair D M_) 0x12345] eq_refl)).
Defined.

(** C1, as stated, fails: the indexed write stores its value unmasked, so
    after [regs[H] = 300] on a fresh register file H holds 300 and the
    pair (H,L) reads 76800. *)
Lemma C1_counterexample :
  run [OpSetItem (PyInt H) 300] __init__ !! H = Some 300 /\
  scalars_are_bytes (run [OpSetItem (PyInt H) 300] __init__) = false /\
  outcome (get_value_from_pair (MkRegisterPair H L))
          (run [OpSetItem (PyInt H) 300] __init__) = Ok 76800 /\
  pairs_are_words (run [OpSetItem (PyInt H) 300] __init__) = false.
Proof. repeat split; vm_compute; reflexivity. Qed.

End RegistersBytes.

(** * Further properties of the flag register *)

Section FlagsWhole.
Import Flags.

Lemma clear_all_run (flags : Z) :
  clear_all flags
  = (Ok tt,
     Z.land (Z.land (Z.land (Z.land (Z.land flags
       (Z.lnot (2 ^ CARRY))) (Z.lnot (2 ^ PARITY))) (Z.lnot (2 ^ AUX_CARRY)))
       (Z.lnot (2 ^ ZERO))) (Z.lnot (2 ^ SIGN))).
Proof. reflexivity. Qed.

Lemma clear_all_bits (flags i : Z) :
  Z.testbit (after clear_all flags) i
  = if decide (In i _valid_bits) then false else Z.testbit flags i.
Proof.
  unfold after. rewrite clear_all_run. cbn [snd].
  rewrite !land_lnot_pow2_bits by done.
  unfold _valid_bits. cbn [In].
  repeat (case_decide; [by rewrite decide_True by (subst i; tauto) |]).
  rewrite decide_False; [done |]. intros Hin.
  repeat (destruct Hin as [Heq | Hin]; [congruence |]). done.
Qed.

(** X1: [clear_all] returns on every flag word; afterwards the five
    addressable bits read 0 and every other bit is as before. *)
Theorem X1_clear_all_clears_five (flags : Z) :
  outcome clear_all flags = Ok tt /\
  Forall (fun b => outcome (__getitem__ (PyInt b)) (after clear_all flags) = Ok 0)
         _valid_bits /\
  forall i, ~ In i _valid_bits ->
    Z.testbit (after clear_all flags) i = Z.testbit flags i.
Proof.
  split; [done |]. split.
  - apply Forall_forall. intros b Hb. apply list_elem_of_In in Hb.
    unfold outcome. rewrite getitem_valid by done. cbn [fst].
    by rewrite clear_all_bits, decide_True.
  - intros i Hi. by rewrite clear_all_bits, decide_False.
Qed.

Lemma X1_witness :
  ~ In 1 _valid_bits /\
  Z.testbit (after clear_all 255) 1 = Z.testbit 255 1.
Proof.
  assert (H1 : ~ In 1 _valid_bits).
  { unfold _valid_bits, CARRY, PARITY, AUX_CARRY, ZERO, SIGN. simpl. lia. }
  split; [exact H1 |].
  exact (proj2 (proj2 (X1_clear_all_clears_five 255)) 1 H1).
Defined.

(** X4: iterating over the flags raises nothing, leaves the flag word as
    it was, and yields as many values as [__len__] says, namely the
    indexed reads of CARRY, PARITY, AUX_CARRY, ZERO, SIGN in that order,
    each of them 0 or 1. *)
Theorem X4_iter_agrees_with_getitem (flags : Z) :
  exists vs,
    outcome __iter__ flags = Ok vs /\
    after __iter__ flags = flags /\
    outcome __len__ flags = Ok (Z.of_nat (length vs)) /\
    Forall2 (fun b v => outcome (__getitem__ (PyInt b)) flags = Ok v)
            _valid_bits vs /\
    Forall (fun v => v = 0 \/ v = 1) vs.
Proof.
  exists (map (fun f => Z.b2z (Z.testbit flags f)) _valid_bits).
  assert (Hread : forall f, In f _valid_bits ->
            Z.shiftr (Z.land flags (2 ^ f)) f = Z.b2z (Z.testbit flags f)).
  { intros f Hf. apply read_bit. by apply valid_bit_nonneg. }
  repeat apply conj.
  - unfold outcome, __iter__, bind, get, ret. cbn [fst]. f_equal.
    apply map_ext_in. exact Hread.
  - done.
  - done.
  - apply Forall2_fmap_r, Forall_Forall2_diag, Forall_forall.
    intros b Hb. apply list_elem_of_In in Hb.
    unfold outcome. by rewrite getitem_valid.
  - apply Forall_fmap, Forall_forall. intros b _. simpl.
    destruct (Z.testbit flags b); simpl; lia.
Qed.

Variable is_negative : Z -> bool.

(** A word reached from the fresh one differs from it in addressable
    bits only. *)
Lemma reached_bits (ops : list op) (i : Z) :
  ~ In i _valid_bits ->
  Z.testbit (run is_negative ops __init__) i = Z.testbit __init__ i.
Proof. apply run_keeps. Qed.

(** X2: after any sequence of public operations on a fresh flag register,
    [clear_all] brings the flag word back to its initial value 2. *)
Theorem X2_clear_all_restores_fresh (ops : list op) :
  after clear_all (run is_negative ops __init__) = __init__.
Proof.
  apply Z.bits_inj'. intros i _. rewrite clear_all_bits.
  case_decide as Hi; [| by apply reached_bits].
  unfold _valid_bits, CARRY, PARITY, AUX_CARRY, ZERO, SIGN in Hi.
  cbn [In] in Hi. by destruct Hi as [<- | [<- | [<- | [<- | [<- | []]]]]].
Qed.

(** X3: after any sequence of public operations on a fresh flag register
    the flag word is a byte whose bits 4 and 5 are 0: it lies in
    [[0,255]] and shares no bit with [0b00110000]. *)
Theorem X3_flag_word_is_byte (ops : list op) :
  0 <= run is_negative ops __init__ <= 255 /\
  Z.land (run is_negative ops __init__) 0x30 = 0.
Proof.
  assert (Hhigh : forall i, 8 <= i ->
            Z.testbit (run is_negative ops __init__) i = false).
  { intros i Hi. rewrite reached_bits.
    - change __init__ with (2 ^ 1). apply Z.pow2_bits_false. lia.
    - unfold _valid_bits, CARRY, PARITY, AUX_CARRY, ZERO, SIGN. simpl. lia. }
  assert (Hpos : 0 <= run is_negative ops __init__).
  { apply Z.bits_iff_nonneg_ex. exists 8. intros m Hm. apply Hhigh. lia. }
  split.
  - split; [done |].
    apply (Z.bounded_iff_bits_nonneg 8) in Hhigh; [| lia | done].
    change (2 ^ 8) with 256 in Hhigh. lia.
  - apply Z.bits_inj'. intros i Hi. rewrite Z.land_spec, Z.bits_0.
    destruct (decide (i = 4 \/ i = 5)) as [H45 | Hother].
    + rewrite reached_bits.
      * change __init__ with (2 ^ 1). rewrite Z.pow2_bits_false by lia. done.
      * unfold _valid_bits, CARRY, PARITY, AUX_CARRY, ZERO, SIGN. simpl. lia.
    + replace (Z.testbit 48 i) with false; [apply andb_false_r |].
      symmetry. destruct (decide (i < 6)) as [Hlt | Hge].
      * assert (Hcases : i = 0 \/ i = 1 \/ i = 2 \/ i = 3) by lia.
        by destruct Hcases as [-> | [-> | [-> | ->]]].
      * apply (Z.bounded_iff_bits_nonneg 6 48); [lia | lia | done | lia].
Qed.

End FlagsWhole.

Section FlagsWrites.
Import Flags.

(** Equal words are words with equal bits; the bits of [|] and [& ~] with
    a power of two are known. *)
Ltac word_eq :=
  apply Z.bits_inj'; intros ? _;
  repeat first [rewrite lor_pow2_bits by done
               | rewrite land_lnot_pow2_bits by done];
  repeat case_decide; congruence.

(** X5: [set_zero] returns on every flag word; afterwards ZERO reads 1
    when the argument is 0 and 0 otherwise, and no other bit has
    changed. *)
Theorem X5_set_zero (data flags : Z) :
  outcome (set_zero data) flags = Ok tt /\
  outcome (__getitem__ (PyInt ZERO)) (after (set_zero data) flags)
  = Ok (if bool_decide (data = 0) then 1 else 0) /\
  forall i, i <> ZERO ->
    Z.testbit (after (set_zero data) flags) i = Z.testbit flags i.
Proof.
  assert (Hin : In ZERO _valid_bits) by (simpl; tauto).
  assert (Hpos : 0 <= ZERO) by by apply valid_bit_nonneg.
  unfold set_zero, outcome, after. case_bool_decide.
  - rewrite set_valid by done. cbn [fst snd].
    rewrite getitem_valid, lor_pow2_bits, decide_True by done.
    repeat split. intros i Hi. by rewrite lor_pow2_bits, decide_False.
  - rewrite clear_valid by done. cbn [fst snd].
    rewrite getitem_valid, land_lnot_pow2_bits, decide_True by done.
    repeat split. intros i Hi. by rewrite land_lnot_pow2_bits, decide_False.
Qed.

(** X7: for an addressable bit [b] and a value equal to 0 or 1 (an [int]
    or a [bool]), the indexed write returns, the indexed read then gives
    that value, no other bit changes, and the flag word is the one the
    named [clear(b)] (for 0) or [set(b)] (for 1) produces. *)
Theorem X7_indexed_write_then_read (b n : Z) (value : pyval) (flags : Z) :
  In b _valid_bits -> py_as_int value = Some n -> n = 0 \/ n = 1 ->
  outcome (__setitem__ (PyInt b) value) flags = Ok tt /\
  outcome (__getitem__ (PyInt b)) (after (__setitem__ (PyInt b) value) flags)
  = Ok n /\
  (forall i, i <> b ->
     Z.testbit (after (__setitem__ (PyInt b) value) flags) i = Z.testbit flags i) /\
  after (__setitem__ (PyInt b) value) flags
  = after (if bool_decide (n = 0) then clear (PyInt b) else set (PyInt b)) flags.
Proof.
  intros Hb Hval Hn. pose proof (valid_bit_nonneg b Hb) as Hpos.
  assert (Hp : py_pow2 (PyInt b) = Ok (2 ^ b)).
  { simpl. by rewrite bool_decide_eq_true_2. }
  unfold outcome, after, __setitem__, py_eq_int.
  rewrite (proj2 (py_in_int b _) Hb), Hval. cbn [negb].
  destruct Hn as [-> | ->].
  - rewrite (bool_decide_eq_true_2 (0 = 0)) by done.
    rewrite (_clear_flag_pow2 _ b), clear_valid by done. cbn [fst snd].
    rewrite getitem_valid, land_lnot_pow2_bits, decide_True by done.
    repeat split. intros i Hi. by rewrite land_lnot_pow2_bits, decide_False.
  - rewrite (bool_decide_eq_false_2 (1 = 0)) by done.
    rewrite (bool_decide_eq_true_2 (1 = 1)) by done.
    rewrite (_set_flag_pow2 _ b), set_valid by done. cbn [fst snd].
    rewrite getitem_valid, lor_pow2_bits, decide_True by done.
    repeat split. intros i Hi. by rewrite lor_pow2_bits, decide_False.
Qed.

Lemma X7_witness :
  In AUX_CARRY _valid_bits /\ py_as_int (PyBool true) = Some 1 /\
  outcome (__getitem__ (PyInt AUX_CARRY))
          (after (__setitem__ (PyInt AUX_CARRY) (PyBool true)) __init__) = Ok 1.
Proof.
  assert (Hin : In AUX_CARRY _valid_bits) by (simpl; tauto).
  split; [exact Hin |]. split; [reflexivity |].
  refine (proj1 (proj2
    (X7_indexed_write_then_read AUX_CARRY 1 (PyBool true) __init__ Hin eq_refl _))).
  right. reflexivity.
Defined.

(** X8: on one addressable bit the last write wins and repeating a write
    changes nothing: [set] after [clear] is [set], [clear] after [set] is
    [clear], [set] twice is [set], [clear] twice is [clear]. *)
Theorem X8_last_write_wins (b flags : Z) :
  In b _valid_bits ->
  after (set (PyInt b)) (after (clear (PyInt b)) flags) = after (set (PyInt b)) flags /\
  after (clear (PyInt b)) (after (set (PyInt b)) flags) = after (clear (PyInt b)) flags /\
  after (set (PyInt b)) (after (set (PyInt b)) flags) = after (set (PyInt b)) flags /\
  after (clear (PyInt b)) (after (clear (PyInt b)) flags)
  = after (clear (PyInt b)) flags.
Proof.
  intros Hb. pose proof (valid_bit_nonneg b Hb) as Hpos.
  unfold after.
  repeat (rewrite ?set_valid, ?clear_valid by done; cbn [snd]).
  repeat split; word_eq.
Qed.

Lemma X8_witness :
  In ZERO _valid_bits /\
  after (clear (PyInt ZERO)) (after (set (PyInt ZERO)) __init__) = __init__.
Proof.
  assert (Hin : In ZERO _valid_bits) by (simpl; tauto).
  split; [exact Hin |].
  exact (proj1 (proj2 (X8_last_write_wins ZERO __init__ Hin))).
Defined.

(** X9: writes to two different addressable bits can be done in either
    order: [set]/[set], [clear]/[clear] and [set]/[clear] commute. *)
Theorem X9_writes_commute (a b flags : Z) :
  In a _valid_bits -> In b _valid_bits -> a <> b ->
  after (set (PyInt a)) (after (set (PyInt b)) flags)
  = after (set (PyInt b)) (after (set (PyInt a)) flags) /\
  after (clear (PyInt a)) (after (clear (PyInt b)) flags)
  = after (clear (PyInt b)) (after (clear (PyInt a)) flags) /\
  after (set (PyInt a)) (after (clear (PyInt b)) flags)
  = after (clear (PyInt b)) (after (set (PyInt a)) flags).
Proof.
  intros Ha Hb Hab.
  pose proof (valid_bit_nonneg a Ha). pose proof (valid_bit_nonneg b Hb).
  unfold after.
  repeat (rewrite ?set_valid, ?clear_valid by done; cbn [snd]).
  repeat split; word_eq.
Qed.

Lemma X9_witness :
  In CARRY _valid_bits /\ In SIGN _valid_bits /\ CARRY <> SIGN /\
  after (set (PyInt CARRY)) (after (clear (PyInt SIGN)) 255)
  = after (clear (PyInt SIGN)) (after (set (PyInt CARRY)) 255).
Proof.
  assert (Ha : In CARRY _valid_bits) by (simpl; tauto).
  assert (Hb : In SIGN _valid_bits) by (simpl; tauto).
  assert (Hab : CARRY <> SIGN) by discriminate.
  split; [exact Ha |]. split; [exact Hb |]. split; [exact Hab |].
  exact (proj2 (proj2 (X9_writes_commute CARRY SIGN 255 Ha Hb Hab))).
Defined.

(** X10: [calculate_parity] looks at the low eight bits of its argument
    only: for every integer, negative ones included, it does what it does
    for the argument modulo 256, and PARITY then reads 1 exactly when
    that byte has an even number of 1-bits. *)
Theorem X10_parity_of_low_byte (data flags : Z) :
  calculate_parity data flags = calculate_parity (data mod 256) flags /\
  outcome (__getitem__ (PyInt PARITY)) (after (calculate_parity data) flags)
  = Ok (if Z.even (popcount (data mod 256)) then 1 else 0).
Proof.
  assert (Hin : In PARITY _valid_bits) by (simpl; tauto).
  assert (Hpos : 0 <= PARITY) by by apply valid_bit_nonneg.
  assert (Hcount : forall d, parity_count d = popcount (d mod 256)).
  { intros d. unfold parity_count. rewrite parity_loop.
    change (2 ^ Z.of_nat 8) with 256. lia. }
  unfold calculate_parity, outcome, after.
  rewrite !Hcount, Z.mod_mod by lia. split; [done |].
  rewrite Zeven_mod. case_bool_decide as Hpar.
  - rewrite (proj2 (Z.eqb_eq _ _) Hpar), set_valid by done. cbn [fst snd].
    by rewrite getitem_valid, lor_pow2_bits, decide_True.
  - rewrite (proj2 (Z.eqb_neq _ _) Hpar), clear_valid by done. cbn [fst snd].
    by rewrite getitem_valid, land_lnot_pow2_bits, decide_True.
Qed.

Variable is_negative : Z -> bool.

Lemma set_sign_run (val flags : Z) :
  set_sign is_negative val flags
  = (Ok tt,
     if is_negative val
     then Z.lor (Z.land flags (Z.lnot (2 ^ SIGN))) (2 ^ SIGN)
     else Z.land flags (Z.lnot (2 ^ SIGN))).
Proof.
  assert (Hin : In SIGN _valid_bits) by (simpl; tauto).
  unfold set_sign, bind. rewrite clear_valid by done.
  destruct (is_negative val); [by rewrite set_valid | done].
Qed.

(** X6: [set_sign] returns on every flag word; afterwards SIGN reads 1
    when [is_negative] holds of the argument and 0 otherwise, whatever
    SIGN was before, and no other bit has changed. *)
Theorem X6_set_sign (val flags : Z) :
  outcome (set_sign is_negative val) flags = Ok tt /\
  outcome (__getitem__ (PyInt SIGN)) (after (set_sign is_negative val) flags)
  = Ok (Z.b2z (is_negative val)) /\
  forall i, i <> SIGN ->
    Z.testbit (after (set_sign is_negative val) flags) i = Z.testbit flags i.
Proof.
  assert (Hin : In SIGN _valid_bits) by (simpl; tauto).
  assert (Hpos : 0 <= SIGN) by by apply valid_bit_nonneg.
  unfold outcome, after. rewrite set_sign_run. cbn [fst snd].
  rewrite getitem_valid by done. cbn [fst].
  destruct (is_negative val).
  - rewrite lor_pow2_bits, decide_True by done.
    repeat split. intros i Hi.
    by rewrite lor_pow2_bits, decide_False, land_lnot_pow2_bits, decide_False.
  - rewrite land_lnot_pow2_bits, decide_True by done.
    repeat split. intros i Hi. by rewrite land_lnot_pow2_bits, decide_False.
Qed.

End FlagsWrites.

(** * Further properties of the register file *)

Section RegistersReads.
Import Registers.

(** X11: the two ways of naming a pair agree: for the selectors 0, 1, 2
    and the codes B, D, H (twice the selector), [get_address_from_pair]
    of the code does exactly what [get_value_from_pair] does on the
    descriptor [get_pairs] returns for the selector, missing cells
    included. *)
Theorem X11_address_is_value_of_selected_pair (sel : Z) (regs : gmap Z Z) :
  0 <= sel <= 2 ->
  get_address_from_pair (PyInt (2 * sel)) regs
  = (rp <~ get_pairs (PyInt sel) ;; get_value_from_pair rp) regs.
Proof.
  intros Hsel. assert (Hcases : sel = 0 \/ sel = 1 \/ sel = 2) by lia.
  by destruct Hcases as [-> | [-> | ->]].
Qed.

Lemma X11_witness :
  0 <= 2 <= 2 /\
  get_address_from_pair (PyInt H) (<[H := 0x20]> __init__)
  = (rp <~ get_pairs (PyInt 2) ;; get_value_from_pair rp) (<[H := 0x20]> __init__).
Proof.
  assert (Hsel : 0 <= 2 <= 2) by lia.
  split; [exact Hsel |].
  exact (X11_address_is_value_of_selected_pair 2 (<[H := 0x20]> __init__) Hsel).
Defined.

(** X12: [get_value_from_pair] looks its registers up unchecked: when the
    high register of the descriptor is not a stored cell it raises
    [KeyError] for it, when only the low one is missing it raises
    [KeyError] for that one, and the registers are left as they were. *)
Theorem X12_value_from_pair_missing_cell (rp : RegisterPair) (regs : gmap Z Z) :
  (regs !! hi rp = None ->
   outcome (get_value_from_pair rp) regs = Raise (KeyError (hi rp))) /\
  (is_Some (regs !! hi rp) -> regs !! lo rp = None ->
   outcome (get_value_from_pair rp) regs = Raise (KeyError (lo rp))) /\
  after (get_value_from_pair rp) regs = regs.
Proof.
  repeat apply conj.
  - intros Hh. unfold outcome, get_value_from_pair, bind.
    by rewrite subscript_none.
  - intros [h Hh] Hl. unfold outcome, get_value_from_pair, bind.
    by rewrite (subscript_some _ h), subscript_none.
  - apply get_value_from_pair_after.
Qed.

Lemma X12_witness :
  outcome (get_value_from_pair (MkRegisterPair M_ A)) __init__
  = Raise (KeyError M_) /\
  outcome (get_value_from_pair (MkRegisterPair A M_)) __init__
  = Raise (KeyError M_).
Proof.
  split.
  - exact (proj1 (X12_value_from_pair_missing_cell (MkRegisterPair M_ A) __init__)
             eq_refl).
  - refine (proj1 (proj2
      (X12_value_from_pair_missing_cell (MkRegisterPair A M_) __init__)) _ eq_refl).
    exists 0. reflexivity.
Defined.

(** X13: only a returning indexed write and a pair write change the
    register file: every other public operation, and every indexed write
    that raises, leaves all registers as they were. *)
Theorem X13_only_writes_change_registers (o : op) (regs : gmap Z Z) :
  (forall rp val, o <> OpSetValuePair rp val) ->
  (forall reg val, o = OpSetItem reg val ->
     exists e, outcome (__setitem__ reg val) regs = Raise e) ->
  effect o regs = regs.
Proof.
  intros Hpair Hitem.
  destruct o as [reg | reg val | register | rp | rp val | opcode off | enc];
    cbn [effect].
  - unfold after. destruct reg as [r | | |]; try done. by rewrite getitem_int.
  - destruct (Hitem reg val eq_refl) as [e He]. revert He.
    unfold outcome, after. destruct reg as [r | | |]; try done.
    rewrite setitem_int. by destruct (regs !! r).
  - apply get_address_from_pair_after.
  - apply get_value_from_pair_after.
  - by destruct (Hpair rp val).
  - done.
  - by destruct enc.
Qed.

Lemma X13_witness :
  effect (OpSetItem (PyInt M_) 9) __init__ = __init__ /\
  effect (OpGetValueFromPair (MkRegisterPair M_ A)) __init__ = __init__.
Proof.
  split.
  - apply X13_only_writes_change_registers.
    + intros rp val. discriminate.
    + intros reg val [= <- <-]. eexists. reflexivity.
  - apply X13_only_writes_change_registers.
    + intros rp val. discriminate.
    + intros reg val. discriminate.
Defined.

End RegistersReads.

Section RegistersWrites.
Import Registers.

(** X14: [set_value_pair] checks nothing: for every descriptor and every
    integer it returns; the low register of the descriptor then holds
    [val & 0xff], also when it was not a stored cell before (the indexed
    read of that code returns from then on); the high register holds
    [(val >> 8) & 0xff] unless it is the same code as the low one; and no
    other cell changes. *)
Theorem X14_pair_write_unchecked (rp : RegisterPair) (val : Z) (regs : gmap Z Z) :
  outcome (set_value_pair rp val) regs = Ok tt /\
  outcome (__getitem__ (PyInt (lo rp))) (after (set_value_pair rp val) regs)
  = Ok (Z.land val 255) /\
  (hi rp <> lo rp ->
   outcome (__getitem__ (PyInt (hi rp))) (after (set_value_pair rp val) regs)
   = Ok (Z.land (Z.shiftr val 8) 255)) /\
  (forall k, k <> hi rp -> k <> lo rp ->
     after (set_value_pair rp val) regs !! k = regs !! k).
Proof.
  unfold outcome, after. rewrite set_value_pair_run. cbn [fst snd].
  repeat apply conj.
  - done.
  - by rewrite getitem_int, lookup_insert_eq.
  - intros Hne. by rewrite getitem_int, lookup_insert_ne, lookup_insert_eq.
  - intros k Hh Hl. by rewrite !lookup_insert_ne.
Qed.

Lemma X14_witness :
  outcome (__getitem__ (PyInt M_)) __init__ = Raise (IndexError (PyInt M_)) /\
  outcome (__getitem__ (PyInt M_))
          (after (set_value_pair (MkRegisterPair A M_) 0x1234) __init__) = Ok 0x34 /\
  outcome (__getitem__ (PyInt A))
          (after (set_value_pair (MkRegisterPair A M_) 0x1234) __init__) = Ok 0x12.
Proof.
  destruct (X14_pair_write_unchecked (MkRegisterPair A M_) 0x1234 __init__)
    as (_ & Hlo & Hhi & _).
  split; [reflexivity |]. split; [exact Hlo |]. apply Hhi. discriminate.
Defined.

(** X15: the indexed write stores into an existing cell only: after it,
    returned or raised, the stored cells are the same codes as before and
    every register other than the one written holds what it held. *)
Theorem X15_indexed_write_frame (reg : pyval) (val : Z) (regs : gmap Z Z) :
  (forall k, is_Some (after (__setitem__ reg val) regs !! k) <-> is_Some (regs !! k)) /\
  (forall k, reg <> PyInt k ->
     after (__setitem__ reg val) regs !! k = regs !! k).
Proof.
  unfold after. destruct reg as [r | | |]; try done.
  rewrite setitem_int. destruct (regs !! r) as [v |] eqn:Hr; [| done].
  cbn [snd]. split.
  - intros k. rewrite lookup_insert. case_decide as Hk; [| done].
    subst k. rewrite Hr. split; by eexists.
  - intros k Hk. rewrite lookup_insert_ne; [done | congruence].
Qed.

Lemma X15_witness :
  PyInt A <> PyInt H /\
  after (__setitem__ (PyInt A) 0x99) __init__ !! H = __init__ !! H.
Proof.
  assert (Hne : PyInt A <> PyInt H) by discriminate.
  split; [exact Hne |].
  exact (proj2 (X15_indexed_write_frame (PyInt A) 0x99 __init__) H Hne).
Defined.

(** What a pair reads depends on its two registers only. *)
Lemma get_value_from_pair_ext (rp : RegisterPair) (r1 r2 : gmap Z Z) :
  r1 !! hi rp = r2 !! hi rp -> r1 !! lo rp = r2 !! lo rp ->
  outcome (get_value_from_pair rp) r1 = outcome (get_value_from_pair rp) r2.
Proof.
  intros Hh Hl. unfold outcome.
  destruct (r2 !! hi rp) as [h |] eqn:Hh2.
  - destruct (r2 !! lo rp) as [l |] eqn:Hl2.
    + by rewrite !(get_value_from_pair_some rp h l).
    + unfold get_value_from_pair, bind.
      rewrite (subscript_some _ h r1), (subscript_some _ h r2) by congruence.
      by rewrite (subscript_none _ r1), (subscript_none _ r2) by congruence.
  - unfold get_value_from_pair, bind.
    by rewrite (subscript_none _ r1), (subscript_none _ r2) by congruence.
Qed.

Lemma standard_pairs_disjoint (p q : RegisterPair) :
  In p _rp -> In q _rp -> p <> q ->
  hi q <> hi p /\ hi q <> lo p /\ lo q <> hi p /\ lo q <> lo p /\
  A <> hi p /\ A <> lo p.
Proof.
  unfold _rp. cbn [In]. intros Hp Hq Hpq.
  destruct Hp as [<- | [<- | [<- | []]]];
    destruct Hq as [<- | [<- | [<- | []]]]; done.
Qed.

(** X16: writing one of the pairs (B,C), (D,E), (H,L) leaves the other
    two pairs and the accumulator alone: they read after the write what
    they read before. *)
Theorem X16_pair_write_keeps_other_pairs
    (p q : RegisterPair) (val : Z) (regs : gmap Z Z) :
  In p _rp -> In q _rp -> p <> q ->
  outcome (get_value_from_pair q) (after (set_value_pair p val) regs)
  = outcome (get_value_from_pair q) regs /\
  outcome (__getitem__ (PyInt A)) (after (set_value_pair p val) regs)
  = outcome (__getitem__ (PyInt A)) regs.
Proof.
  intros Hp Hq Hpq.
  destruct (standard_pairs_disjoint p q Hp Hq Hpq)
    as (Hhh & Hhl & Hlh & Hll & HAh & HAl).
  unfold after. rewrite set_value_pair_run. cbn [snd].
  set (regs' := <[lo p := Z.land val 255]>
                  (<[hi p := Z.land (Z.shiftr val 8) 255]> regs)).
  assert (Hsame : forall k, k <> hi p -> k <> lo p -> regs' !! k = regs !! k).
  { intros k Hh Hl. unfold regs'. by rewrite !lookup_insert_ne. }
  split.
  - apply get_value_from_pair_ext; by apply Hsame.
  - unfold outcome. rewrite !getitem_int. cbn [fst].
    by rewrite Hsame.
Qed.

Lemma X16_witness :
  In (MkRegisterPair H L) _rp /\ In (MkRegisterPair B C) _rp /\
  MkRegisterPair H L <> MkRegisterPair B C /\
  outcome (get_value_from_pair (MkRegisterPair B C))
          (after (set_value_pair (MkRegisterPair H L) 0xffff)
                 (<[B := 1]> __init__))
  = outcome (get_value_from_pair (MkRegisterPair B C)) (<[B := 1]> __init__).
Proof.
  assert (Hp : In (MkRegisterPair H L) _rp) by (simpl; tauto).
  assert (Hq : In (MkRegisterPair B C) _rp) by (simpl; tauto).
  assert (Hpq : MkRegisterPair H L <> MkRegisterPair B C) by discriminate.
  split; [exact Hp |]. split; [exact Hq |]. split; [exact Hpq |].
  exact (proj1 (X16_pair_write_keeps_other_pairs
    (MkRegisterPair H L) (MkRegisterPair B C) 0xffff (<[B := 1]> __init__)
    Hp Hq Hpq)).
Defined.

(** X17: reading a pair and writing the value back changes nothing, as
    long as the two registers of the pair hold bytes. *)
Theorem X17_pair_read_then_write_back
    (rp : RegisterPair) (h l v : Z) (regs : gmap Z Z) :
  regs !! hi rp = Some h -> regs !! lo rp = Some l ->
  0 <= h <= 255 -> 0 <= l <= 255 ->
  outcome (get_value_from_pair rp) regs = Ok v ->
  after (set_value_pair rp v) regs = regs.
Proof.
  intros Hh Hl Hhb Hlb Hv. unfold outcome in Hv.
  rewrite (get_value_from_pair_some rp h l) in Hv by done.
  injection Hv as <-. unfold after. rewrite set_value_pair_run. cbn [snd].
  rewrite lor_shiftl_byte by lia.
  rewrite !land_255, Z.shiftr_div_pow2 by lia. change (2 ^ 8) with 256.
  replace ((h * 256 + l) / 256) with h by (Z.div_mod_to_equations; lia).
  replace ((h * 256 + l) mod 256) with l by (Z.div_mod_to_equations; lia).
  rewrite (Z.mod_small h) by lia.
  rewrite (insert_id regs (hi rp) h) by done. by apply insert_id.
Qed.

Lemma X17_witness :
  after (set_value_pair (MkRegisterPair D E) 0xabcd)
        (<[E := 0xcd]> (<[D := 0xab]> __init__))
  = <[E := 0xcd]> (<[D := 0xab]> __init__).
Proof.
  apply (X17_pair_read_then_write_back (MkRegisterPair D E) 0xab 0xcd).
  - reflexivity.
  - reflexivity.
  - lia.
  - lia.
  - reflexivity.
Defined.

End RegistersWrites.

Section OpcodeFields.
Import Registers.

Lemma land_7_bits (a i : Z) :
  0 <= i -> Z.testbit (Z.land a 7) i = Z.testbit a i && bool_decide (i < 3).
Proof.
  intros Hi. change 7 with (Z.ones 3).
  rewrite Z.land_spec, Z.testbit_ones_nonneg by lia. f_equal.
  case_bool_decide; lia.
Qed.

Lemma field_high_bits (x i : Z) : 0 <= x <= 7 -> 3 <= i -> Z.testbit x i = false.
Proof.
  intros Hx Hi.
  apply (Z.bounded_iff_bits_nonneg 3 x); [lia | lia | | lia].
  change (2 ^ 3) with 8. lia.
Qed.

(** X18: whatever the opcode, for an offset that is not negative
    [get_register_from_opcode] returns a register code in [[0,7]], the
    opcode divided by [2 ** bit_offset] modulo 8; for a negative offset the
    shift raises [ValueError]. *)
Theorem X18_opcode_field_range (opcode bit_offset : Z) :
  (0 <= bit_offset ->
   exists r, get_register_from_opcode opcode bit_offset = Ok r /\
             0 <= r <= 7 /\ r = (opcode / 2 ^ bit_offset) mod 8) /\
  (bit_offset < 0 ->
   exists msg, get_register_from_opcode opcode bit_offset = Raise (ValueError msg)).
Proof.
  unfold get_register_from_opcode. split; intros Hoff.
  - rewrite bool_decide_eq_false_2 by lia. eexists. split; [done |].
    rewrite Z.shiftr_land, Z.shiftr_shiftl_l, Z.sub_diag by done.
    change (Z.shiftl 7 0) with (Z.ones 3).
    rewrite Z.land_ones, Z.shiftr_div_pow2 by lia. change (2 ^ 3) with 8.
    split; [| done].
    pose proof (Z.mod_pos_bound (opcode / 2 ^ bit_offset) 8). lia.
  - rewrite bool_decide_eq_true_2 by done. by eexists.
Qed.

Lemma X18_witness :
  (exists r, get_register_from_opcode (-1) 5 = Ok r /\ 0 <= r <= 7) /\
  (exists msg, get_register_from_opcode 0x7e (-1) = Raise (ValueError msg)).
Proof.
  split.
  - destruct (proj1 (X18_opcode_field_range (-1) 5)) as (r & Hr & Hrange & _);
      [lia |].
    exists r. split; [exact Hr | exact Hrange].
  - apply (proj2 (X18_opcode_field_range 0x7e (-1))). lia.
Defined.

(** X19: decoding undoes encoding: in an opcode assembled as
    [(top << 6) | (d << 3) | s] from two register codes [d] and [s] in
    [[0,7]], the field at offset 3 is [d] and the field at offset 0 is
    [s], whatever the upper bits [top] are. *)
Theorem X19_opcode_fields_round_trip (top d s : Z) :
  0 <= d <= 7 -> 0 <= s <= 7 ->
  get_register_from_opcode
    (Z.lor (Z.lor (Z.shiftl top 6) (Z.shiftl d 3)) s) 3 = Ok d /\
  get_register_from_opcode
    (Z.lor (Z.lor (Z.shiftl top 6) (Z.shiftl d 3)) s) 0 = Ok s.
Proof.
  intros Hd Hs. unfold get_register_from_opcode.
  rewrite !bool_decide_eq_false_2 by lia.
  rewrite !Z.shiftr_land, !Z.shiftr_shiftl_l, !Z.sub_diag by lia.
  change (Z.shiftl 7 0) with 7.
  split; f_equal; apply Z.bits_inj'; intros i Hi;
    rewrite land_7_bits, Z.shiftr_spec, !Z.lor_spec, !Z.shiftl_spec by lia.
  - case_bool_decide as Hlow.
    + rewrite (Z.testbit_neg_r top) by lia.
      rewrite (field_high_bits s) by lia.
      replace (i + 3 - 3) with i by lia.
      by rewrite orb_false_r, andb_true_r.
    + rewrite (field_high_bits d i) by lia. apply andb_false_r.
  - rewrite Z.add_0_r. case_bool_decide as Hlow.
    + rewrite (Z.testbit_neg_r top), (Z.testbit_neg_r d) by lia.
      by rewrite andb_true_r.
    + rewrite (field_high_bits s i) by lia. apply andb_false_r.
Qed.

Lemma X19_witness :
  0 <= A <= 7 /\ 0 <= M_ <= 7 /\
  get_register_from_opcode 0x7e 3 = Ok A /\
  get_register_from_opcode 0x7e 0 = Ok M_.
Proof.
  assert (Hd : 0 <= A <= 7) by (unfold A; lia).
  assert (Hs : 0 <= M_ <= 7) by (unfold M_; lia).
  split; [exact Hd |]. split; [exact Hs |].
  exact (X19_opcode_fields_round_trip 1 A M_ Hd Hs).
Defined.

End OpcodeFields.

Section RegistersReachable.
Import Registers.




End RegistersReachable.

Section RegistersSelectors.
Import Registers.

(** X21: a pair written through the descriptor of selector 0, 1 or 2 is
    read back by [get_address_from_pair] under the code B, D or H (twice
    the selector) as the written value modulo 65536, for every integer,
    so a negative value reads back as its 16-bit two's complement. *)
Theorem X21_selector_write_code_read (sel val : Z) (rp : RegisterPair) (regs : gmap Z Z) :
  outcome (get_pairs (PyInt sel)) regs = Ok rp -> 0 <= sel ->
  outcome (get_address_from_pair (PyInt (2 * sel)))
          (after (set_value_pair rp val) regs)
  = Ok (val mod 65536).
Proof.
  intros Hrp Hsel.
  assert (Hcases : sel = 0 \/ sel = 1 \/ sel = 2 \/ 3 <= sel) by lia.
  assert (Hread : forall code p,
            _pairs !! code = Some p -> hi p <> lo p ->
            outcome (get_address_from_pair (PyInt code))
                    (after (set_value_pair p val) regs) = Ok (val mod 65536)).
  { intros code p Hp Hne. unfold after. rewrite set_value_pair_run. cbn [snd].
    rewrite (get_address_from_pair_code code
               (Z.land (Z.shiftr val 8) 255) (Z.land val 255) p); [| done | |].
    - by rewrite split_assemble.
    - rewrite lookup_insert_ne by done. apply lookup_insert_eq.
    - apply lookup_insert_eq. }
  destruct Hcases as [-> | [-> | [-> | Hbig]]].
  - injection Hrp as <-. by apply (Hread B).
  - injection Hrp as <-. by apply (Hread D).
  - injection Hrp as <-. by apply (Hread H).
  - exfalso. revert Hrp.
    unfold outcome, get_pairs, lift, py_list_getitem.
    change (Z.of_nat (length _rp)) with 3. cbv zeta.
    rewrite (bool_decide_eq_false_2 (sel < 0)) by lia.
    by rewrite bool_decide_eq_false_2 by lia.
Qed.

Lemma X21_witness :
  outcome (get_pairs (PyInt 2)) __init__ = Ok (MkRegisterPair H L) /\
  0 <= 2 /\
  outcome (get_address_from_pair (PyInt H))
          (after (set_value_pair (MkRegisterPair H L) (-1)) __init__)
  = Ok 0xffff.
Proof.
  assert (Hsel : 0 <= 2) by lia.
  split; [reflexivity |]. split; [exact Hsel |].
  exact (X21_selector_write_code_read 2 (-1) (MkRegisterPair H L) __init__
           eq_refl Hsel).
Defined.

End RegistersSelectors.

(** * Indexed access on a reached register file *)

Section RegistersIndexed.
Import Registers.






End RegistersIndexed.
